(** * Prison geofencing service: a shallow embedding of [geofencing_api.py]

    The development follows the Python module top-down: Python floats and
    their order, JSON values and dicts, the interface of the geometry
    engine the module calls (shapely / geopandas / pyproj), the
    [PrisonGeofencing] class with its methods written in a state and
    exception monad, and the two Flask views that call them.  The
    theorems at the end are stated on these definitions. *)

From Stdlib Require Import ZArith Lia Bool List.
From Stdlib Require Import PrimFloat SpecFloat FloatOps FloatAxioms.
From Stdlib Require Import Ascii String DecimalString.
From stdpp Require Import gmap strings list.

Set Warnings "-register-all,-inexact-float".
Set Default Proof Using "Type*".

Local Open Scope Z_scope.

(** ** Python floats

    A Python [float] is an IEEE-754 binary64 number, which is what Rocq's
    primitive [float] is; comparisons are the primitive ones. *)

Module PyFloat.

Definition lt (x y : float) : bool := PrimFloat.ltb x y.
Definition le (x y : float) : bool := PrimFloat.leb x y.
Definition isnan (x : float) : bool := PrimFloat.is_nan x.

(** [float(n)] for a Python [int]: the nearest double, ties to even;
    [None] stands for the [OverflowError] CPython raises when the integer
    is too large for a double. *)
Definition of_int (z : Z) : option float :=
let f := SF2Prim (binary_normalize prec emax z 0 false) in
if PrimFloat.is_infinity f then None else Some f.

(** The order of two finite numbers of the same sign on the
    specification side: by exponent, then by mantissa. *)
Definition lex_pos (e1 : Z) (m1 : positive) (e2 : Z) (m2 : positive) : comparison :=
match e1 ?= e2 with Eq => Pos.compare m1 m2 | Lt => Lt | Gt => Gt end.

Definition lex_neg (e1 : Z) (m1 : positive) (e2 : Z) (m2 : positive) : comparison :=
match e1 ?= e2 with Eq => CompOpp (Pos.compare m1 m2) | Lt => Gt | Gt => Lt end.

(** The outcome of a comparison that makes [<=] hold. *)
Definition cmp_le (c : option comparison) : bool :=
match c with Some Lt | Some Eq => true | _ => false end.

End PyFloat.

(** ** JSON values, Python dicts and exceptions

    [request.json] hands the routes a parsed JSON document, and every
    method answers with a dict that [jsonify] serialises, so one type
    covers both.  A Python dict is a finite map.  [JNumpyInt] is a numpy
    integer scalar ([numpy.int64]), which is what pandas hands out for a
    cell of an integer column of a row taken with [.iloc]; it is a
    number, but no Python [int]. *)

Inductive json :=
| JNull
| JBool (b : bool)
| JInt (z : Z)
| JNumpyInt (z : Z)
| JFloat (f : float)
| JStr (s : string)
| JArr (l : list json)
| JObj (m : gmap string json).

(** A dict literal [{k1: v1, ...}] with distinct keys. *)
Definition dict (l : list (string * json)) : json := JObj (list_to_map l).

(** [d[k]] read off a result: [None] when [d] is no dict or lacks [k]. *)
Definition field (k : string) (d : json) : option json :=
match d with JObj m => m !! k | _ => None end.

Inductive exn :=
| AttributeError | IndexError | KeyError | OverflowError | TypeError | ValueError.

(** The value a computation returned, if it did not raise. *)
Definition returned {A} (r : exn + A) : option A :=
match r with inr a => Some a | inl _ => None end.

(** Python truthiness, as used by [not data] and [if result:]. *)
Definition truthy (v : json) : bool :=
match v with
| JNull => false
| JBool b => b
| JInt z | JNumpyInt z => negb (z =? 0)
| JFloat f => negb (PrimFloat.eqb f 0%float)
| JStr s => negb (String.eqb s "")
| JArr l => negb (Nat.eqb (length l) 0)
| JObj m => negb (Nat.eqb (size m) 0)
end.

Definition is_str (k : string) (v : json) : bool :=
match v with JStr s => String.eqb s k | _ => false end.

(** [k in data]: key membership for a dict, element membership for a
    list, substring test for a str, [TypeError] for anything else. *)
Definition py_in (k : string) (data : json) : exn + bool :=
match data with
| JObj m => inr (bool_decide (is_Some (m !! k)))
| JArr l => inr (existsb (is_str k) l)
| JStr s => inr (match String.index 0 k s with Some _ => true | None => false end)
| _ => inl TypeError
end.

(** [data[k]] with a str key: only a dict supports it (a numpy scalar
    answers a str key with [IndexError]). *)
Definition getitem (data : json) (k : string) : exn + json :=
match data with
| JObj m => match m !! k with Some v => inr v | None => inl KeyError end
| JNumpyInt _ => inl IndexError
| _ => inl TypeError
end.

Definition chars (s : string) : list json :=
map (fun c => JStr (String c EmptyString)) (String.list_ascii_of_string s).

(** [for loc in v]: a list yields its elements, a dict its keys, a str
    its characters; other values are not iterable. *)
Definition py_iter (v : json) : exn + list json :=
match v with
| JArr l => inr l
| JObj m => inr (map (fun kv => JStr (fst kv)) (map_to_list m))
| JStr s => inr (chars s)
| _ => inl TypeError
end.

(** [jsonify(v)]: Flask's JSON provider writes Python's own values as
    they are, and raises [TypeError] (Object of type int64 is not JSON
    serializable) when a numpy integer occurs anywhere in [v]. *)
Fixpoint serializable (v : json) : bool :=
match v with
| JNumpyInt _ => false
| JArr l => forallb serializable l
| JObj m => map_fold (fun _ v' rest => serializable v' && rest) true m
| _ => true
end.

Definition jsonify (v : json) : exn + json :=
if serializable v then inr v else inl TypeError.

(** The parts of the Python runtime the module relies on and that are
    left abstract: parsing a str as a float ([None] is [ValueError]),
    [round(x, ndigits)] of a distance, which is a [numpy.float64], and
    the text of the [n]-th reading of the UTC
    clock, [datetime.now(timezone.utc).isoformat()]. *)
Class Builtins := {
  float_of_str : string -> option float;
  round : float -> Z -> float;
  isoformat : nat -> string;
}.

(** [float(v)]. *)
Definition to_float `{Builtins} (v : json) : exn + float :=
match v with
| JFloat f => inr f
| JInt z | JNumpyInt z =>
    match PyFloat.of_int z with Some f => inr f | None => inl OverflowError end
| JBool b => inr (if b then 1%float else 0%float)
| JStr s => match float_of_str s with Some f => inr f | None => inl ValueError end
| JNull | JArr _ | JObj _ => inl TypeError
end.

(** ** The geometry engine

    shapely geometries and predicates, and pyproj's change of coordinate
    reference system, are an interface: a type of geometries with the
    operations the module calls.  [buffer g d] is [g.buffer(d)] for an
    [int] distance, [transform src dst g] re-expresses [g], given in
    EPSG:[src], in EPSG:[dst].  The module never calls [touches]; it is
    there to say that a point lies on the boundary of a geometry. *)
Class Shapely := {
  geom : Type;
  Point : float -> float -> geom;
  polygon_empty : geom;
  geom_type : geom -> string;
  buffer : geom -> Z -> geom;
  contains : geom -> geom -> bool;
  touches : geom -> geom -> bool;
  distance : geom -> geom -> float;
  transform : Z -> Z -> geom -> geom;
}.

(** Documented behaviour of shapely that some theorems rely on: a change
    of CRS maps a point to a point; buffering a point by a distance that
    is not positive leaves nothing ([POLYGON EMPTY]); the empty polygon
    contains nothing. *)
Class ShapelyLaws (S : Shapely) : Prop := {
  transform_Point : forall src dst x y,
    exists x' y', transform src dst (Point x y) = Point x' y';
  buffer_Point : forall x y d, d <= 0 -> buffer (Point x y) d = polygon_empty;
  geom_type_Point : forall x y, geom_type (Point x y) = "Point";
  geom_type_empty : geom_type polygon_empty = "Polygon";
  contains_empty : forall g, contains polygon_empty g = false;
}.

(** What the remaining views, the export and the client need besides:
    the text of the [n]-th reading of the clock taken with
    [datetime.utcnow().isoformat()], the text an f-string gives a float
    and a cell, and the text [str(e)] of the exception that subscripting
    a value with a str key raised. *)
Class Runtime := {
  utcnow_isoformat : nat -> string;
  str_float : float -> string;
  str_value : json -> string;
  str_error : exn -> json -> string -> string;
}.

(** The attributes [.x] and [.y] of a geometry: only a point has them
    ([None] is the [AttributeError] of any other geometry). *)
Class Coords (G : Shapely) := {
  geom_x : geom -> option float;
  geom_y : geom -> option float;
}.

(** ** State and exceptions

    A computation reads and writes a state [S] and either returns a value
    or raises; the state survives a raise, as the heap does in Python. *)

Definition M (S A : Type) : Type := S -> (exn + A) * S.

Definition ret {S A} (a : A) : M S A := fun s => (inr a, s).

Definition raise {S A} (e : exn) : M S A := fun s => (inl e, s).

Definition bind {S A B} (m : M S A) (k : A -> M S B) : M S B :=
fun s => match m s with
         | (inr a, s') => k a s'
         | (inl e, s') => (inl e, s')
         end.

Definition lift {S A} (r : exn + A) : M S A :=
match r with inr a => ret a | inl e => raise e end.

Definition gets {S A} (f : S -> A) : M S A := fun s => (inr (f s), s).

Definition modify {S} (f : S -> S) : M S unit := fun s => (inr tt, f s).

Definition exn_eqb (a b : exn) : bool :=
match a, b with
| AttributeError, AttributeError | IndexError, IndexError | KeyError, KeyError
| OverflowError, OverflowError | TypeError, TypeError | ValueError, ValueError => true
| _, _ => false
end.

Definition exn_in (e : exn) (es : list exn) : bool := existsb (exn_eqb e) es.

(** [try: m except es: h]: a raise of [m] listed in [es] runs the handler. *)
Definition try_except {S A} (m : M S A) (es : list exn) (h : M S A) : M S A :=
fun s => match m s with
         | (inl e, s') => if exn_in e es then h s' else (inl e, s')
         | r => r
         end.

Declare Scope py_scope.
Delimit Scope py_scope with py.
Notation "x <- m ;; k" := (bind m (fun x => k))
  (at level 100, m at next level, right associativity) : py_scope.
Notation "m ;;; k" := (bind m (fun _ => k))
  (at level 100, right associativity) : py_scope.
Local Open Scope py_scope.

Section Geofencing.

Context `{B : Builtins} `{G : Shapely}.

(** ** GeoDataFrames

    A row carries the columns the module reads: [osm_id], the remaining
    attribute columns as a map ([tags]), the active geometry column
    [geometry], and the extra column [zone], which is absent ([None]) in a
    frame as loaded.  A frame records the CRS of its geometry column.
    Frames are those [extract_prisons.py] and [create_sample_data.py]
    write: every feature has an [osm_id] and a geometry, and the index is
    the default one, so that a label is a position. *)

Record row := {
  osm_id : Z;
  tags : gmap string json;
  geometry : geom;
  zone : option geom;
}.

Record GeoDataFrame := {
  crs : Z;
  rows : list row;
}.

(** [GeoSeries.to_crs(epsg=...)]: a series already in the target CRS is
    returned as it is. *)
Definition GeoSeries_to_crs (src : Z) (g : geom) (epsg : Z) : geom :=
if src =? epsg then g else transform src epsg g.

(** [GeoDataFrame.to_crs(epsg=...)] returns a copy in which the active
    geometry column, and only that column, is transformed. *)
Definition to_crs (df : GeoDataFrame) (epsg : Z) : GeoDataFrame :=
{| crs := epsg;
   rows := map (fun r => {| osm_id := osm_id r; tags := tags r;
                            geometry := GeoSeries_to_crs (crs df) (geometry r) epsg;
                            zone := zone r |}) (rows df) |}.

(** [df['zone'] = series]: the column is set row by row. *)
Definition set_zone (df : GeoDataFrame) (series : list geom) : GeoDataFrame :=
{| crs := crs df;
   rows := zip_with (fun r z => {| osm_id := osm_id r; tags := tags r;
                                   geometry := geometry r; zone := Some z |})
             (rows df) series |}.

(** [df.geometry.buffer(d)]. *)
Definition geometry_buffer (df : GeoDataFrame) (d : Z) : list geom :=
map (fun r => buffer (geometry r) d) (rows df).

(** [df.geometry.distance(p)]. *)
Definition geometry_distance (df : GeoDataFrame) (p : geom) : list float :=
map (fun r => distance (geometry r) p) (rows df).

(** [df.iloc[i]]. *)
Definition iloc (df : GeoDataFrame) (i : nat) : exn + row :=
match rows df !! i with Some r => inr r | None => inl IndexError end.

(** [prison.get(key, default)]: the cell when the column exists, the
    default otherwise. *)
Definition get (prison : row) (key default : string) : json :=
match tags prison !! key with Some v => v | None => JStr default end.

(** ** Minimum of a float Series

    pandas skips NaN by replacing it with [+inf] and lets numpy scan;
    [min] and [argmin] both keep the first least element.  An empty or
    all-NaN series has minimum NaN and no [idxmin]. *)

Definition mask (d : float) : float :=
if PyFloat.isnan d then infinity else d.

Fixpoint scan_min (l : list float) (i : nat) (best : nat * float) : nat * float :=
match l with
| [] => best
| x :: r => scan_min r (S i) (if PyFloat.lt x (snd best) then (i, x) else best)
end.

Definition argmin_min (l : list float) : option (nat * float) :=
match l with
| [] => None
| x :: r => Some (scan_min r 1%nat (0%nat, x))
end.

Definition Series_min (ds : list float) : float :=
if forallb PyFloat.isnan ds then nan
else match argmin_min (map mask ds) with Some (_, m) => m | None => nan end.

Definition Series_idxmin (ds : list float) : exn + nat :=
if forallb PyFloat.isnan ds then inl ValueError
else match argmin_min (map mask ds) with Some (i, _) => inr i | None => inl ValueError end.

(** ** class PrisonGeofencing

    An instance holds four attributes; an attribute that was never
    assigned is [None] and reading it raises [AttributeError].  Methods
    run on a state made of the instance ([self]) and the number of clock
    readings taken so far. *)

Record PrisonGeofencing := {
  prisons_gdf : option GeoDataFrame;
  buffer_meters : option Z;
  prisons_metric : option GeoDataFrame;
  prisons_zones : option GeoDataFrame;
}.

Record env := {
  self : PrisonGeofencing;
  clock : nat;
}.

Definition Meth (A : Type) : Type := M env A.

Definition blank : PrisonGeofencing :=
{| prisons_gdf := None; buffer_meters := None; prisons_metric := None; prisons_zones := None |}.

Definition getattr {A} (f : PrisonGeofencing -> option A) : Meth A :=
fun s => match f (self s) with
         | Some a => (inr a, s)
         | None => (inl AttributeError, s)
         end.

Definition setattr (f : PrisonGeofencing -> PrisonGeofencing) : Meth unit :=
modify (fun s => {| self := f (self s); clock := clock s |}).

(** [datetime.now(timezone.utc).isoformat()]: one more reading of the clock. *)
Definition now : Meth string :=
fun s => (inr (isoformat (clock s)), {| self := self s; clock := S (clock s) |}).

(** [_create_prison_zones]: the zone column is the metric geometry
    buffered by [-buffer_meters]; [prisons_zones] is the metric frame
    taken back to EPSG:4326. *)
Definition _create_prison_zones : Meth unit :=
  metric <- getattr prisons_metric ;;
  m <- getattr buffer_meters ;;
  setattr (fun o => {| prisons_gdf := prisons_gdf o; buffer_meters := buffer_meters o;
                       prisons_metric := Some (set_zone metric (geometry_buffer metric (- m)));
                       prisons_zones := prisons_zones o |}) ;;;
  metric <- getattr prisons_metric ;;
  setattr (fun o => {| prisons_gdf := prisons_gdf o; buffer_meters := buffer_meters o;
                       prisons_metric := prisons_metric o;
                       prisons_zones := Some (to_crs metric 4326) |}).

(** [__init__], given the frame [gpd.read_file(prisons_file)] returned
    (the file system and the progress prints are left out). *)
Definition __init__ (gdf : GeoDataFrame) (buffer_meters_ : Z) : Meth unit :=
  setattr (fun o => {| prisons_gdf := Some gdf; buffer_meters := buffer_meters o;
                       prisons_metric := prisons_metric o; prisons_zones := prisons_zones o |}) ;;;
  setattr (fun o => {| prisons_gdf := prisons_gdf o; buffer_meters := Some buffer_meters_;
                       prisons_metric := prisons_metric o; prisons_zones := prisons_zones o |}) ;;;
  gdf' <- getattr prisons_gdf ;;
  setattr (fun o => {| prisons_gdf := prisons_gdf o; buffer_meters := buffer_meters o;
                       prisons_metric := Some (to_crs gdf' 3857);
                       prisons_zones := prisons_zones o |}) ;;;
  _create_prison_zones.

(** [PrisonGeofencing(prisons_file, buffer_meters)]: a fresh instance on
    which [__init__] has run. *)
Definition new (gdf : GeoDataFrame) (buffer_meters_ : Z) : PrisonGeofencing :=
self (snd (__init__ gdf buffer_meters_ {| self := blank; clock := 0 |})).

(** The [for ... in self.prisons_zones.iterrows()] loop of
    [check_location] up to its early return: the first row whose zone
    contains the point. *)
Fixpoint first_zone (point : geom) (prisons : list row) : exn + option row :=
match prisons with
| [] => inr None
| prison :: rest =>
    match zone prison with
    | None => inl KeyError
    | Some z => if contains z point then inr (Some prison) else first_zone point rest
    end
end.

Definition coordinates (latitude longitude : float) : json :=
dict [("latitude", JFloat latitude); ("longitude", JFloat longitude)].

Definition prison_info (prison : row) : json :=
dict [("osm_id", JInt (osm_id prison));
      ("name", get prison "name" "Prisão não identificada");
      ("operator", get prison "operator" "N/A");
      ("state", get prison "addr:state" "N/A");
      ("city", get prison "addr:city" "N/A")].

Definition check_location (latitude longitude : float) : Meth json :=
  let point := Point longitude latitude in
  zones <- getattr prisons_zones ;;
  hit <- lift (first_zone point (rows zones)) ;;
  match hit with
  | Some prison =>
      timestamp <- now ;;
      ret (dict [("inside_prison", JBool true);
                 ("risk_level", JStr "HIGH");
                 ("action", JStr "BLOCK");
                 ("prison_info", prison_info prison);
                 ("coordinates", coordinates latitude longitude);
                 ("timestamp", JStr timestamp)])
  | None =>
      timestamp <- now ;;
      ret (dict [("inside_prison", JBool false);
                 ("risk_level", JStr "LOW");
                 ("action", JStr "ALLOW");
                 ("prison_info", JNull);
                 ("coordinates", coordinates latitude longitude);
                 ("timestamp", JStr timestamp)])
  end.

(** [batch_check]: the loop appends one result per location. *)
Fixpoint batch_loop (results : list json) (locations : list (float * float))
  : Meth (list json) :=
match locations with
| [] => ret results
| (lat, lon) :: rest =>
    r <- check_location lat lon ;;
    batch_loop (results ++ [r]) rest
end.

Definition batch_check (locations : list (float * float)) : Meth (list json) :=
batch_loop [] locations.

(** The row comes from [.iloc], so its [osm_id] is a numpy integer; the
    cells of the other columns are Python objects. *)
Definition nearest_info (nearest_prison : row) : json :=
dict [("osm_id", JNumpyInt (osm_id nearest_prison));
      ("name", get nearest_prison "name" "N/A");
      ("operator", get nearest_prison "operator" "N/A");
      ("state", get nearest_prison "addr:state" "N/A")].

(** [get_nearest_prison]; [None] is Python's [None]. *)
Definition get_nearest_prison (latitude longitude max_distance_km : float)
  : Meth (option json) :=
  let point := Point longitude latitude in
  let point_metric := GeoSeries_to_crs 4326 point 3857 in
  metric <- getattr prisons_metric ;;
  let distances := geometry_distance metric point_metric in
  let min_distance := Series_min distances in
  let min_distance_km := (min_distance / 1000)%float in
  if PyFloat.le min_distance_km max_distance_km then
    nearest_idx <- lift (Series_idxmin distances) ;;
    gdf <- getattr prisons_gdf ;;
    nearest_prison <- lift (iloc gdf nearest_idx) ;;
    ret (Some (dict [("distance_km", JFloat (round min_distance_km 3));
                     ("distance_meters", JFloat (round min_distance 1));
                     ("prison_info", nearest_info nearest_prison)]))
  else ret None.

(** ** The Flask application

    The module-level state is the global [PRISONS_DATA] and the clock.
    A view returns a JSON body with an HTTP status; an exception no
    handler catches leaves the view as a raise.  What the views hand to
    [jsonify] is made of literals, values of the request and cells read
    through [iterrows], all Python values, which are written as they
    are; the one numpy scalar that reaches [jsonify] is the [osm_id] in
    the answer of [get_nearest_prison]. *)

Record globals := {
  PRISONS_DATA : option PrisonGeofencing;
  ticks : nat;
}.

(** [PRISONS_DATA.method(...)]: the method runs on the instance the
    global refers to, and what it does to the instance is seen through
    the global afterwards. *)
Definition call {A} (m : Meth A) : M globals A :=
fun s => match PRISONS_DATA s with
         | None => (inl AttributeError, s)
         | Some o =>
             let '(r, e) := m {| self := o; clock := ticks s |} in
             (r, {| PRISONS_DATA := Some (self e); ticks := clock e |})
         end.

(** [initialize_api] with the file already read. *)
Definition initialize_api (gdf : GeoDataFrame) (buffer_meters_ : Z) : M globals unit :=
modify (fun s => {| PRISONS_DATA := Some (new gdf buffer_meters_); ticks := ticks s |}).

Definition error (msg : string) (status : Z) : json * Z :=
(dict [("error", JStr msg)], status).

(** [not data or k1 not in data] with Python's short-circuit. *)
Definition absent (data : json) (k : string) : exn + bool :=
if negb (truthy data) then inr true
else match py_in k data with inl e => inl e | inr b => inr (negb b) end.

(** [float(v['latitude'])], then [float(v['longitude'])]. *)
Definition lat_lon (v : json) : exn + (float * float) :=
match getitem v "latitude" with
| inl e => inl e
| inr a =>
    match to_float a with
    | inl e => inl e
    | inr lat =>
        match getitem v "longitude" with
        | inl e => inl e
        | inr b =>
            match to_float b with
            | inl e => inl e
            | inr lon => inr (lat, lon)
            end
        end
    end
end.

(** The body of a [try] that converts one location; the handler of the
    view answers with an error, which [None] stands for. *)
Definition try_lat_lon (v : json) (es : list exn) : M globals (option (float * float)) :=
try_except (p <- lift (lat_lon v) ;; ret (Some p)) es (ret None).

(** [result[k] = v]. *)
Definition setitem (d : json) (k : string) (v : json) : exn + json :=
match d with JObj m => inr (JObj (<[k := v]> m)) | _ => inl TypeError end.

(** The view of [POST /api/v1/check-location]; [data] is [request.json]. *)
Definition route_check_location (data : json) : M globals (json * Z) :=
  prisons_data <- gets PRISONS_DATA ;;
  match prisons_data with
  | None => ret (error "Prison data not loaded" 500)
  | Some _ =>
      no_lat <- lift (absent data "latitude") ;;
      no_lon <- (if no_lat then ret true
                 else b <- lift (py_in "longitude" data) ;; ret (negb b)) ;;
      if no_lon then ret (error "Missing latitude or longitude" 400)
      else
        parsed <- try_lat_lon data [ValueError; TypeError] ;;
        match parsed with
        | None => ret (error "Invalid coordinates" 400)
        | Some (lat, lon) =>
            result <- call (check_location lat lon) ;;
            has_id <- lift (py_in "transaction_id" data) ;;
            result <- (if has_id
                       then tid <- lift (getitem data "transaction_id") ;;
                            lift (setitem result "transaction_id" tid)
                       else ret result) ;;
            ret (result, 200)
        end
  end.

(** The loop of the batch view that converts the locations: the first
    element that fails to convert ends the request. *)
Fixpoint parse_locations (locs : list json) (locations : list (float * float))
  : M globals (option (list (float * float))) :=
match locs with
| [] => ret (Some locations)
| loc :: rest =>
    parsed <- try_lat_lon loc [ValueError; TypeError; KeyError] ;;
    match parsed with
    | None => ret None
    | Some p => parse_locations rest (locations ++ [p])
    end
end.

(** The view of [POST /api/v1/batch-check]. *)
Definition route_batch_check (data : json) : M globals (json * Z) :=
  prisons_data <- gets PRISONS_DATA ;;
  match prisons_data with
  | None => ret (error "Prison data not loaded" 500)
  | Some _ =>
      no_locs <- lift (absent data "locations") ;;
      if no_locs then ret (error "Missing locations array" 400)
      else
        v <- lift (getitem data "locations") ;;
        locs <- lift (py_iter v) ;;
        parsed <- parse_locations locs [] ;;
        match parsed with
        | None => ret (error "Invalid location format" 400)
        | Some locations =>
            results <- call (batch_check locations) ;;
            ret (dict [("total", JInt (Z.of_nat (length results)));
                       ("results", JArr results)], 200)
        end
  end.

(** ** The rest of the module: the other views, the JSON export, and
    the client of [example_integration.py] *)

Context `{R : Runtime} {C : Coords G}.

(** [data.get(k, default)]: a method of dicts only. *)
Definition py_get (data : json) (k : string) (default : json) : exn + json :=
match data with
| JObj m => inr (match m !! k with Some v => v | None => default end)
| _ => inl AttributeError
end.

(** The [try] block of the nearest view: the two coordinates, then
    [float(data.get('max_distance_km', 5.0))]. *)
Definition nearest_params (data : json) : exn + (float * float * float) :=
match lat_lon data with
| inl e => inl e
| inr (lat, lon) =>
    match py_get data "max_distance_km" (JFloat 5) with
    | inl e => inl e
    | inr v =>
        match to_float v with
        | inl e => inl e
        | inr max_dist => inr (lat, lon, max_dist)
        end
    end
end.

Definition not_found (max_dist : float) : json :=
dict [("distance_km", JNull);
      ("prison_info", JNull);
      ("message", JStr ("No prison found within " +:+ str_float max_dist +:+ "km"))].

(** The view of [POST /api/v1/nearest-prison]. *)
Definition route_nearest_prison (data : json) : M globals (json * Z) :=
  prisons_data <- gets PRISONS_DATA ;;
  match prisons_data with
  | None => ret (error "Prison data not loaded" 500)
  | Some _ =>
      no_lat <- lift (absent data "latitude") ;;
      no_lon <- (if no_lat then ret true
                 else b <- lift (py_in "longitude" data) ;; ret (negb b)) ;;
      if no_lon then ret (error "Missing latitude or longitude" 400)
      else
        parsed <- try_except (p <- lift (nearest_params data) ;; ret (Some p))
                    [ValueError; TypeError] (ret None) ;;
        match parsed with
        | None => ret (error "Invalid parameters" 400)
        | Some (lat, lon, max_dist) =>
            result <- call (get_nearest_prison lat lon max_dist) ;;
            match result with
            | Some found => if truthy found
                            then body <- lift (jsonify found) ;; ret (body, 200)
                            else ret (not_found max_dist, 200)
            | None => ret (not_found max_dist, 200)
            end
        end
  end.

(** [datetime.utcnow().isoformat()] in a view. *)
Definition utcnow : M globals string :=
fun s => (inr (utcnow_isoformat (ticks s)),
          {| PRISONS_DATA := PRISONS_DATA s; ticks := S (ticks s) |}).

(** The view of [GET /health]. *)
Definition route_health_check : M globals (json * Z) :=
  prisons_data <- gets PRISONS_DATA ;;
  prisons_loaded <- match prisons_data with
                    | Some o =>
                        match prisons_gdf o with
                        | Some gdf => ret (Z.of_nat (length (rows gdf)))
                        | None => raise AttributeError
                        end
                    | None => ret 0
                    end ;;
  timestamp <- utcnow ;;
  ret (dict [("status", JStr "healthy");
             ("prisons_loaded", JInt prisons_loaded);
             ("timestamp", JStr timestamp)], 200).

(** One entry of [export_json_list]; the dict literal is evaluated in
    the order of its keys, so [.y] is read before [.x], and the
    [osm_type] column last. *)
Definition export_entry (prison : row) : exn + json :=
match geom_y (geometry prison) with
| None => inl AttributeError
| Some latitude =>
    match geom_x (geometry prison) with
    | None => inl AttributeError
    | Some longitude =>
        match tags prison !! "osm_type" with
        | None => inl KeyError
        | Some osm_type =>
            inr (dict [("id", JInt (osm_id prison));
                       ("name", get prison "name" "N/A");
                       ("operator", get prison "operator" "N/A");
                       ("state", get prison "addr:state" "N/A");
                       ("city", get prison "addr:city" "N/A");
                       ("latitude", JFloat latitude);
                       ("longitude", JFloat longitude);
                       ("osm_link",
                        JStr ("https://www.openstreetmap.org/" +:+ str_value osm_type
                              +:+ "/" +:+ str_value (JInt (osm_id prison))))])
        end
    end
end.

Fixpoint export_loop (prisons_list : list json) (prisons : list row) : exn + list json :=
match prisons with
| [] => inr prisons_list
| prison :: rest =>
    match export_entry prison with
    | inl e => inl e
    | inr entry => export_loop (prisons_list ++ [entry]) rest
    end
end.

(** [datetime.utcnow().isoformat()] in a method. *)
Definition utcnow_meth : Meth string :=
fun s => (inr (utcnow_isoformat (clock s)), {| self := self s; clock := S (clock s) |}).

(** [export_json_list]: the document handed to [json.dump]; opening and
    writing the file, and the print, are left out. *)
Definition export_json_list : Meth json :=
  gdf <- getattr prisons_gdf ;;
  prisons_list <- lift (export_loop [] (rows gdf)) ;;
  m <- getattr buffer_meters ;;
  generated_at <- utcnow_meth ;;
  ret (dict [("total", JInt (Z.of_nat (length prisons_list)));
             ("buffer_meters", JInt m);
             ("generated_at", JStr generated_at);
             ("prisons", JArr prisons_list)]).

(** What [session.post] did, as [validate_transaction_location] sees
    it: a response with its status code and what [response.json()]
    gives (the text of the exception it raises on a body that is no
    JSON), a [requests.Timeout], or any other exception with its text. *)
Inductive reply :=
| Reply (status_code : Z) (body : string + json)
| TimedOut
| Raised (text : string).

Definition fail_open (reason : string) : json :=
dict [("should_block", JBool false);
      ("reason", JStr reason);
      ("prison_name", JNull);
      ("risk_level", JStr "UNKNOWN");
      ("error", JBool true)].

(** [data[k]] in the client, with the text of the exception on failure. *)
Definition subscript (data : json) (k : string) : string + json :=
match getitem data k with
| inr v => inr v
| inl e => inl (str_error e data k)
end.

(** The dict the client builds from a 200 response, entry by entry. *)
Definition decision (data : json) : string + json :=
match subscript data "inside_prison" with
| inl text => inl text
| inr inside =>
    let reason := if truthy inside then "inside_prison" else "location_ok" in
    match py_get data "prison_info" JNull with
    | inl e => inl (str_error e data "prison_info")
    | inr info =>
        match (if truthy info then subscript info "name" else inr JNull) with
        | inl text => inl text
        | inr prison_name =>
            match subscript data "risk_level" with
            | inl text => inl text
            | inr risk_level =>
                inr (dict [("should_block", inside);
                           ("reason", JStr reason);
                           ("prison_name", prison_name);
                           ("risk_level", risk_level);
                           ("error", JBool false)])
            end
        end
    end
end.

(** [BankingGeofenceClient.validate_transaction_location]; [post] is
    [session.post] to the check-location view with the given timeout. *)
Definition validate_transaction_location (post : json -> reply)
    (latitude longitude : float) (transaction_id : string) : json :=
match post (dict [("latitude", JFloat latitude);
                  ("longitude", JFloat longitude);
                  ("transaction_id", JStr transaction_id)]) with
| TimedOut => fail_open "geofencing_timeout"
| Raised text => fail_open ("geofencing_error: " +:+ text)
| Reply status_code body =>
    if negb (status_code =? 200) then fail_open "geofencing_service_error"
    else match body with
         | inl text => fail_open ("geofencing_error: " +:+ text)
         | inr data =>
             match decision data with
             | inl text => fail_open ("geofencing_error: " +:+ text)
             | inr result => result
             end
         end
end.

(** A request as Flask serves it: the view's answer goes back with its
    status; an exception that leaves the view becomes a 500 whose body is
    no JSON ([html] is the text [response.json()] then fails with). *)
Definition serve (view : json -> M globals (json * Z)) (html : string)
    (st : globals) (request : json) : reply * globals :=
match view request st with
| (inr (body, status), st') => (Reply status (inr body), st')
| (inl _, st') => (Reply 500 (inl html), st')
end.

(** ** Notions used to state the properties *)

(** What a loaded instance keeps in the zone column for a raw geometry
    [g] of a frame in CRS [src]: [g] in EPSG:3857, buffered by [-m].
    This is the geometry [check_location] tests, and it is in metres:
    the [to_crs] that ends [_create_prison_zones] re-expresses the
    geometry column only. *)
Definition safety_geometry (src m : Z) (g : geom) : geom :=
buffer (GeoSeries_to_crs src g 3857) (- m).

(** The safety geometry in the words of the specification (section 4.2,
    and the comment [Voltar para lat/lon] of [_create_prison_zones]): the
    raw geometry taken to the metric projection, buffered by [-m], and
    the result taken back to geographic coordinates. *)
Definition spec_safety_geometry (src m : Z) (g : geom) : geom :=
GeoSeries_to_crs 3857 (safety_geometry src m g) 4326.

(** The row of [prisons_zones] a row of the loaded frame becomes. *)
Definition prepared (src m : Z) (r : row) : row :=
{| osm_id := osm_id r; tags := tags r;
   geometry := GeoSeries_to_crs 3857 (GeoSeries_to_crs src (geometry r) 3857) 4326;
   zone := Some (safety_geometry src m (geometry r)) |}.

(** The distances [get_nearest_prison] compares: from the query point to
    each raw geometry, both in EPSG:3857. *)
Definition raw_distances (gdf : GeoDataFrame) (latitude longitude : float) : list float :=
map (fun r => distance (GeoSeries_to_crs (crs gdf) (geometry r) 3857)
                       (GeoSeries_to_crs 4326 (Point longitude latitude) 3857))
    (rows gdf).

(** A loaded instance at clock reading [t]. *)
Definition loaded (gdf : GeoDataFrame) (m : Z) (t : nat) : env :=
{| self := new gdf m; clock := t |}.

(** The application once [initialize_api] has run. *)
Definition serving (gdf : GeoDataFrame) (m : Z) (t : nat) : globals :=
{| PRISONS_DATA := Some (new gdf m); ticks := t |}.

(** A computation leaves the observation [f] of the state as it found it. *)
Definition preserves {S A X} (f : S -> X) (m : M S A) : Prop :=
forall s, f (snd (m s)) = f s.

End Geofencing.

Arguments row {G}.
Arguments GeoDataFrame {G}.
Arguments PrisonGeofencing {G}.
Arguments env {G}.
Arguments globals {G}.

(** ** An executable instance

    To run the module on concrete inputs the two interfaces are
    instantiated: geometries are points and axis-parallel rectangles in
    binary64 coordinates, with shapely's predicates on them, the
    Euclidean distance, a square in place of the disc a point buffers to,
    and a uniform scaling (metres per degree at the equator) in place of
    the Web Mercator projection (it agrees with it at the point of
    latitude 0 and longitude 0, and to first order near it); [round] is
    numpy's, as for a [numpy.float64]; [float] of a str reads plain
    decimal literals. *)

Module Ref.

Inductive shape :=
| SPoint (x y : float)
| SBox (x0 y0 x1 y1 : float)
| SEmpty.

Definition flt := PyFloat.lt.
Definition fle := PyFloat.le.

(** The open rectangles meet. *)
Definition interiors_meet (a0 b0 a1 b1 x0 y0 x1 y1 : float) : bool :=
flt a0 x1 && flt x0 a1 && flt b0 y1 && flt y0 b1.

(** The closed rectangles meet. *)
Definition closures_meet (a0 b0 a1 b1 x0 y0 x1 y1 : float) : bool :=
fle a0 x1 && fle x0 a1 && fle b0 y1 && fle y0 b1.

Definition strictly_inside (x0 y0 x1 y1 x y : float) : bool :=
flt x0 x && flt x x1 && flt y0 y && flt y y1.

Definition inside_or_on (x0 y0 x1 y1 x y : float) : bool :=
fle x0 x && fle x x1 && fle y0 y && fle y y1.

Definition contains (g h : shape) : bool :=
match g, h with
| SBox x0 y0 x1 y1, SPoint x y => strictly_inside x0 y0 x1 y1 x y
| SPoint a b, SPoint x y => PrimFloat.eqb a x && PrimFloat.eqb b y
| SBox a0 b0 a1 b1, SBox x0 y0 x1 y1 =>
    fle a0 x0 && fle x1 a1 && fle b0 y0 && fle y1 b1
    && interiors_meet a0 b0 a1 b1 x0 y0 x1 y1
| _, _ => false
end.

Definition touches (g h : shape) : bool :=
match g, h with
| SBox x0 y0 x1 y1, SPoint x y | SPoint x y, SBox x0 y0 x1 y1 =>
    inside_or_on x0 y0 x1 y1 x y && negb (strictly_inside x0 y0 x1 y1 x y)
| SBox a0 b0 a1 b1, SBox x0 y0 x1 y1 =>
    closures_meet a0 b0 a1 b1 x0 y0 x1 y1
    && negb (interiors_meet a0 b0 a1 b1 x0 y0 x1 y1)
| _, _ => false
end.

Definition fmax (a b : float) : float := if flt a b then b else a.

(** Gap between the intervals [[a0, a1]] and [[x0, x1]]. *)
Definition gap (a0 a1 x0 x1 : float) : float :=
fmax 0%float (fmax (a0 - x1)%float (x0 - a1)%float).

Definition hypot (dx dy : float) : float :=
PrimFloat.sqrt (dx * dx + dy * dy)%float.

Definition distance (g h : shape) : float :=
match g, h with
| SPoint a b, SPoint x y => hypot (x - a)%float (y - b)%float
| SBox x0 y0 x1 y1, SPoint x y | SPoint x y, SBox x0 y0 x1 y1 =>
    hypot (gap x0 x1 x x) (gap y0 y1 y y)
| SBox a0 b0 a1 b1, SBox x0 y0 x1 y1 => hypot (gap a0 a1 x0 x1) (gap b0 b1 y0 y1)
| _, _ => nan
end.

Definition grow (x0 y0 x1 y1 d : float) : shape :=
let x0' := (x0 - d)%float in
let y0' := (y0 - d)%float in
let x1' := (x1 + d)%float in
let y1' := (y1 + d)%float in
if flt x0' x1' && flt y0' y1' then SBox x0' y0' x1' y1' else SEmpty.

Definition buffer (g : shape) (d : Z) : shape :=
match PyFloat.of_int d with
| None => SEmpty
| Some df =>
    match g with
    | SPoint x y => if d <=? 0 then SEmpty else grow x y x y df
    | SBox x0 y0 x1 y1 => grow x0 y0 x1 y1 df
    | SEmpty => SEmpty
    end
end.

Definition geom_type (g : shape) : string :=
match g with SPoint _ _ => "Point" | _ => "Polygon" end.

Definition metres_per_degree : float := 111319.49079327357%float.

Definition scale (f : float -> float) (g : shape) : shape :=
match g with
| SPoint x y => SPoint (f x) (f y)
| SBox x0 y0 x1 y1 => SBox (f x0) (f y0) (f x1) (f y1)
| SEmpty => SEmpty
end.

Definition transform (src dst : Z) (g : shape) : shape :=
if (src =? 4326) && (dst =? 3857) then scale (fun c => (c * metres_per_degree)%float) g
else if (src =? 3857) && (dst =? 4326) then scale (fun c => (c / metres_per_degree)%float) g
else g.

(** The double nearest to [N / D], negated when [neg]: [N >= 0], [D > 0].
    The quotient is taken with 64 extra bits and a sticky bit. *)
Definition div_to_float (neg : bool) (N D : Z) : float :=
let sh := 65 + Z.log2 D in
let q := (N * 2 ^ sh) / D in
let r := (N * 2 ^ sh) mod D in
let mant := 2 * q + (if r =? 0 then 0 else 1) in
SF2Prim (binary_normalize prec emax (if neg then - mant else mant) (- (sh + 1)) neg).

(** The nearest integer, ties to even ([numpy.rint]): below [2^52] in
    magnitude, adding and taking off [2^52] rounds away the fraction. *)
Definition rint (x : float) : float :=
let big := 4503599627370496%float in
if flt (PrimFloat.abs x) big then
  if flt x 0%float then (- ((- x + big) - big))%float else ((x + big) - big)%float
else x.

Definition power_of_ten (n : Z) : float :=
SF2Prim (binary_normalize prec emax (10 ^ n) 0 false).

(** [round(x, n)] for a [numpy.float64]: numpy multiplies by [10^n],
    rounds to the nearest integer and divides by [10^n], each step in
    binary64 (for a negative [n] it divides first). *)
Definition round (x : float) (n : Z) : float :=
if 0 <=? n then (rint (x * power_of_ten n) / power_of_ten n)%float
else (rint (x / power_of_ten (- n)) * power_of_ten (- n))%float.

Definition digit (c : ascii) : option Z :=
let n := Z.of_N (Ascii.N_of_ascii c) in
if (48 <=? n) && (n <=? 57) then Some (n - 48) else None.

Fixpoint read_digits (l : list ascii) (acc cnt : Z) : Z * Z * list ascii :=
match l with
| c :: r =>
    match digit c with
    | Some d => read_digits r (10 * acc + d) (cnt + 1)
    | None => (acc, cnt, l)
    end
| [] => (acc, cnt, [])
end.

(** [float(s)] for an optional sign, digits and an optional fraction;
    anything else is a [ValueError] here. *)
Definition float_of_str (s : string) : option float :=
let l := String.list_ascii_of_string s in
let '(neg, l) := match l with
                 | "-"%char :: r => (true, r)
                 | "+"%char :: r => (false, r)
                 | _ => (false, l)
                 end in
let '(ip, ni, l) := read_digits l 0 0 in
match l with
| [] => if ni =? 0 then None else Some (div_to_float neg ip 1)
| "."%char :: r =>
    let '(fp, nf, l') := read_digits r 0 0 in
    match l' with
    | [] => if ni + nf =? 0 then None
            else Some (div_to_float neg (ip * 10 ^ nf + fp) (10 ^ nf))
    | _ => None
    end
| _ => None
end.

Definition isoformat (n : nat) : string :=
"1970-01-01T00:00:00+00:00#" +:+ NilZero.string_of_uint (Nat.to_uint n).

#[global] Instance builtins : Builtins :=
Build_Builtins float_of_str round isoformat.

#[global] Instance shapely : Shapely :=
Build_Shapely shape SPoint SEmpty geom_type buffer contains touches distance transform.

(** The frame [create_sample_data.py] writes: five prisons, each a point. *)
Definition prison (id : Z) (name city : string) (lon lat : float) : row :=
{| osm_id := id;
   tags := list_to_map [("osm_type", JStr "way"); ("name", JStr name);
                        ("operator", JStr "SEAP-RJ"); ("addr:state", JStr "RJ");
                        ("addr:city", JStr city)];
   geometry := SPoint lon lat;
   zone := None |}.

Definition sample : GeoDataFrame :=
{| crs := 4326;
   rows := [prison 999001 "Complexo de Gericinó" "Rio de Janeiro" (-43.4686) (-22.8475);
            prison 999002 "Presídio Ary Franco" "Rio de Janeiro" (-43.4120) (-22.8550);
            prison 999003 "Cadeia Pública José Frederico Marques" "Rio de Janeiro"
              (-43.3088) (-22.8812);
            prison 999004 "Penitenciária Talavera Bruce" "Rio de Janeiro"
              (-43.4650) (-22.8460);
            prison 999005 "Presídio Milton Dias Moreira" "Japeri" (-43.6518) (-22.6425)] |}.

(** Two overlapping rectangular compounds, already in EPSG:3857, the one
    with the larger id first in the file. *)
Definition compound (id : Z) (name : string) (x0 y0 x1 y1 : float) : row :=
{| osm_id := id;
   tags := list_to_map [("name", JStr name)];
   geometry := SBox x0 y0 x1 y1;
   zone := None |}.

Definition overlapping : GeoDataFrame :=
{| crs := 3857;
   rows := [compound 7 "East block" 0 0 400 400; compound 3 "West block" (-200) 0 300 400] |}.

(** Zone A of the specification's concrete scenario: the square of one
    hundredth of a degree, in degrees, with a corner at latitude 0 and
    longitude 0. *)
Definition zone_a : GeoDataFrame :=
{| crs := 4326; rows := [compound 1 "Zone A" 0 0 0.01 0.01] |}.

(** A square yard of two hundredths of a degree, in degrees, centred on
    latitude 0 and longitude 0. *)
Definition yard : GeoDataFrame :=
{| crs := 4326; rows := [compound 1 "Yard" (-0.01) (-0.01) 0.01 0.01] |}.

(** Two overlapping compounds given in degrees, both around latitude 0
    and longitude 0, the one with the larger id first in the file. *)
Definition adjoining : GeoDataFrame :=
{| crs := 4326;
   rows := [compound 7 "East block" (-0.01) (-0.01) 0.02 0.01;
            compound 3 "West block" (-0.02) (-0.01) 0.01 0.01] |}.

(** Stand-ins for the remaining texts: the clock without offset, a
    float that is a whole number as Python prints it (any other float as
    its mantissa and binary exponent), a cell as an f-string prints it,
    and CPython's messages for a failed subscript. *)
Definition utcnow_isoformat (n : nat) : string :=
"1970-01-01T00:00:00#" +:+ NilZero.string_of_uint (Nat.to_uint n).

Definition str_int (z : Z) : string := NilZero.string_of_int (Z.to_int z).

Definition str_float (x : float) : string :=
match Prim2SF x with
| S754_zero s => if s then "-0.0" else "0.0"
| S754_infinity s => if s then "-inf" else "inf"
| S754_nan => "nan"
| S754_finite s m e =>
    let sign := if s then "-" else "" in
    if (0 <=? e) && (e <=? 0) then sign +:+ str_int (Z.pos m) +:+ ".0"
    else if (0 <? e) && (Z.pos m * 2 ^ e <? 10 ^ 16)
    then sign +:+ str_int (Z.pos m * 2 ^ e) +:+ ".0"
    else if (e <? 0) && (Z.pos m mod 2 ^ (- e) =? 0)
    then sign +:+ str_int (Z.pos m / 2 ^ (- e)) +:+ ".0"
    else sign +:+ str_int (Z.pos m) +:+ "*2**" +:+ str_int e
end.

Definition str_value (v : json) : string :=
match v with
| JNull => "None"
| JBool b => if b then "True" else "False"
| JInt z | JNumpyInt z => str_int z
| JFloat f => str_float f
| JStr s => s
| JArr _ => "[...]"
| JObj _ => "{...}"
end.

Definition str_error (e : exn) (data : json) (k : string) : string :=
match e, data with
| KeyError, _ => "'" +:+ k +:+ "'"
| _, JNull => "'NoneType' object is not subscriptable"
| _, JBool _ => "'bool' object is not subscriptable"
| _, JInt _ => "'int' object is not subscriptable"
| _, JNumpyInt _ => "invalid index to scalar variable."
| _, JFloat _ => "'float' object is not subscriptable"
| _, JStr _ => "string indices must be integers, not 'str'"
| _, JArr _ => "list indices must be integers or slices, not str"
| _, JObj _ => "'dict' object has no attribute 'get'"
end.

#[global] Instance runtime : Runtime :=
Build_Runtime utcnow_isoformat str_float str_value str_error.

#[global] Instance coords : Coords shapely :=
Build_Coords shapely
  (fun g => match g with SPoint x _ => Some x | _ => None end)
  (fun g => match g with SPoint _ y => Some y | _ => None end).

(** A frame with a polygon between two points, as the extractor writes
    one for a closed way. *)
Definition mixed : GeoDataFrame :=
{| crs := 4326;
   rows := [prison 999001 "Complexo de Gericinó" "Rio de Janeiro" (-43.4686) (-22.8475);
            {| osm_id := 42;
               tags := list_to_map [("osm_type", JStr "way"); ("name", JStr "Yard")];
               geometry := SBox (-43.5) (-22.9) (-43.49) (-22.89);
               zone := None |};
            prison 999002 "Presídio Ary Franco" "Rio de Janeiro" (-43.4120) (-22.8550)] |}.

End Ref.

(** * Properties *)

(** ** Order of floats

    On the specification side two finite numbers of the same sign
    compare by exponent, then by mantissa. *)

Lemma lex_pos_Lt e1 m1 e2 m2 :
  PyFloat.lex_pos e1 m1 e2 m2 = Lt <-> e1 < e2 \/ (e1 = e2 /\ (m1 < m2)%positive).
Proof.
  unfold PyFloat.lex_pos.
  destruct (Z.compare_spec e1 e2); [rewrite Pos.compare_lt_iff| |];
    split; try discriminate; try lia; auto.
Qed.

Lemma lex_neg_Lt e1 m1 e2 m2 :
  PyFloat.lex_neg e1 m1 e2 m2 = Lt <-> e2 < e1 \/ (e1 = e2 /\ (m2 < m1)%positive).
Proof.
  unfold PyFloat.lex_neg. destruct (Z.compare_spec e1 e2).
  - rewrite <- Pos.compare_gt_iff.
    destruct (Pos.compare m1 m2); simpl; split; try discriminate; try lia; auto.
    all: intros [?|[_ ?]]; try lia; discriminate.
  - split; try discriminate; lia.
  - split; auto.
Qed.

Lemma SFcompare_Lt_trans (x y z : spec_float) :
  SFcompare x y = Some Lt -> SFcompare y z = Some Lt -> SFcompare x z = Some Lt.
Proof.
  destruct x as [sx|sx| |sx mx ex], y as [sy|sy| |sy my ey], z as [sz|sz| |sz mz ez];
    simpl; try discriminate; try reflexivity;
    repeat match goal with b : bool |- _ => destruct b end;
    try discriminate; try reflexivity.
  - change (Some (PyFloat.lex_neg ex mx ey my) = Some Lt ->
            Some (PyFloat.lex_neg ey my ez mz) = Some Lt ->
            Some (PyFloat.lex_neg ex mx ez mz) = Some Lt).
    intros [= Hxy] [= Hyz]. f_equal.
    apply lex_neg_Lt in Hxy, Hyz. apply lex_neg_Lt. lia.
  - change (Some (PyFloat.lex_pos ex mx ey my) = Some Lt ->
            Some (PyFloat.lex_pos ey my ez mz) = Some Lt ->
            Some (PyFloat.lex_pos ex mx ez mz) = Some Lt).
    intros [= Hxy] [= Hyz]. f_equal.
    apply lex_pos_Lt in Hxy, Hyz. apply lex_pos_Lt. lia.
Qed.

Lemma SFcompare_refl (x : spec_float) :
  SFcompare x x = Some Eq \/ x = S754_nan.
Proof.
  destruct x as [[]|[]| |[] m e]; simpl; auto.
  all: rewrite Z.compare_refl, Pos.compare_refl; simpl; auto.
Qed.

Lemma lt_trans (x y z : float) :
  PyFloat.lt x y = true -> PyFloat.lt y z = true -> PyFloat.lt x z = true.
Proof.
  unfold PyFloat.lt. rewrite !ltb_spec. unfold SFltb.
  destruct (SFcompare (Prim2SF x) (Prim2SF y)) as [[]|] eqn:Hxy; try discriminate.
  destruct (SFcompare (Prim2SF y) (Prim2SF z)) as [[]|] eqn:Hyz; try discriminate.
  intros _ _. now rewrite (SFcompare_Lt_trans _ _ _ Hxy Hyz).
Qed.

Lemma lt_irrefl (x : float) : PyFloat.lt x x = false.
Proof.
  unfold PyFloat.lt. rewrite ltb_spec. unfold SFltb.
  destruct (SFcompare_refl (Prim2SF x)) as [E|E]; rewrite E; reflexivity.
Qed.

Lemma isnan_spec (x : float) : PyFloat.isnan x = true -> Prim2SF x = S754_nan.
Proof.
  unfold PyFloat.isnan, PrimFloat.is_nan. rewrite FloatAxioms.eqb_spec. unfold SFeqb.
  intros H. destruct (SFcompare_refl (Prim2SF x)) as [E|E]; [|exact E].
  rewrite E in H. discriminate.
Qed.

Lemma lt_nan_r (x y : float) : PyFloat.isnan y = true -> PyFloat.lt x y = false.
Proof.
  intros H. unfold PyFloat.lt. rewrite ltb_spec, (isnan_spec _ H). unfold SFltb.
  now destruct (Prim2SF x).
Qed.

Lemma lt_nan_l (x y : float) : PyFloat.isnan x = true -> PyFloat.lt x y = false.
Proof.
  intros H. unfold PyFloat.lt. rewrite ltb_spec, (isnan_spec _ H). reflexivity.
Qed.

Lemma le_nan_l (x y : float) : PyFloat.isnan x = true -> PyFloat.le x y = false.
Proof.
  intros H. unfold PyFloat.le. rewrite leb_spec, (isnan_spec _ H). reflexivity.
Qed.

Lemma SFcompare_Lt_not_Lt (x y z : spec_float) :
  SFcompare x y = Some Lt -> z <> S754_nan -> SFcompare z y <> Some Lt ->
  SFcompare x z = Some Lt.
Proof.
  destruct x as [sx|sx| |sx mx ex], y as [sy|sy| |sy my ey], z as [sz|sz| |sz mz ez];
    simpl; try discriminate; try reflexivity; try congruence;
    repeat match goal with b : bool |- _ => destruct b end;
    try discriminate; try reflexivity; try congruence.
  - change (Some (PyFloat.lex_neg ex mx ey my) = Some Lt -> S754_finite true mz ez <> S754_nan ->
            Some (PyFloat.lex_neg ez mz ey my) <> Some Lt ->
            Some (PyFloat.lex_neg ex mx ez mz) = Some Lt).
    intros [= Hxy] _ Hzy. f_equal. apply lex_neg_Lt in Hxy. apply lex_neg_Lt.
    assert (Hn : ~ (ey < ez \/ (ez = ey /\ (my < mz)%positive)))
      by (intros H; apply Hzy; f_equal; now apply lex_neg_Lt).
    lia.
  - change (Some (PyFloat.lex_pos ex mx ey my) = Some Lt -> S754_finite false mz ez <> S754_nan ->
            Some (PyFloat.lex_pos ez mz ey my) <> Some Lt ->
            Some (PyFloat.lex_pos ex mx ez mz) = Some Lt).
    intros [= Hxy] _ Hzy. f_equal. apply lex_pos_Lt in Hxy. apply lex_pos_Lt.
    assert (Hn : ~ (ez < ey \/ (ez = ey /\ (mz < my)%positive)))
      by (intros H; apply Hzy; f_equal; now apply lex_pos_Lt).
    lia.
Qed.

Lemma isnan_false (x : float) : PyFloat.isnan x = false -> Prim2SF x <> S754_nan.
Proof.
  unfold PyFloat.isnan, PrimFloat.is_nan. rewrite FloatAxioms.eqb_spec. unfold SFeqb.
  intros H E. rewrite E in H. discriminate.
Qed.

(** Among numbers, what is not below [y] is above everything below [y]. *)
Lemma lt_of_not_lt (x y z : float) :
  PyFloat.lt x y = true -> PyFloat.isnan z = false -> PyFloat.lt z y = false ->
  PyFloat.lt x z = true.
Proof.
  unfold PyFloat.lt. rewrite !ltb_spec. unfold SFltb. intros Hxy Hz Hzy.
  destruct (SFcompare (Prim2SF x) (Prim2SF y)) as [[]|] eqn:E; try discriminate.
  rewrite (SFcompare_Lt_not_Lt _ _ _ E (isnan_false _ Hz)); [reflexivity|].
  intros E'. rewrite E' in Hzy. discriminate.
Qed.

Lemma lt_isnan_l (x y : float) : PyFloat.lt x y = true -> PyFloat.isnan x = false.
Proof.
  intros H. destruct (PyFloat.isnan x) eqn:E; [|reflexivity].
  rewrite (lt_nan_l _ y E) in H. discriminate.
Qed.

Lemma lt_isnan_r (x y : float) : PyFloat.lt x y = true -> PyFloat.isnan y = false.
Proof.
  intros H. destruct (PyFloat.isnan y) eqn:E; [|reflexivity].
  rewrite (lt_nan_r x _ E) in H. discriminate.
Qed.

(** Nothing in a scanned list is below the minimum the scan returns, and
    the minimum sits at the index returned with it. *)
Lemma scan_min_spec (r pre : list float) (bi : nat) (bv : float) :
  pre !! bi = Some bv ->
  (forall x, x ∈ pre -> PyFloat.lt x bv = false) ->
  let res := scan_min r (length pre) (bi, bv) in
  (pre ++ r) !! fst res = Some (snd res)
  /\ forall x, x ∈ pre ++ r -> PyFloat.lt x (snd res) = false.
Proof.
  revert pre bi bv. induction r as [|x r IH]; intros pre bi bv Hbi Hmin; simpl.
  - rewrite app_nil_r. auto.
  - replace (pre ++ x :: r) with ((pre ++ [x]) ++ r) by now rewrite <- app_assoc.
    replace (S (length pre)) with (length (pre ++ [x])) by (rewrite length_app; simpl; lia).
    destruct (PyFloat.lt x bv) eqn:Hx.
    + apply IH.
      * rewrite lookup_app_r by lia. now rewrite Nat.sub_diag.
      * intros y Hy. apply elem_of_app in Hy as [Hy|Hy].
        -- destruct (PyFloat.lt y x) eqn:Hyx; [|reflexivity].
           rewrite <- (Hmin y Hy). symmetry. now apply lt_trans with x.
        -- apply list_elem_of_singleton in Hy as ->. apply lt_irrefl.
    + apply IH.
      * now apply lookup_app_l_Some.
      * intros y Hy. apply elem_of_app in Hy as [Hy|Hy]; [now apply Hmin|].
        now apply list_elem_of_singleton in Hy as ->.
Qed.

(** In a list of numbers the scan returns the first least element:
    whatever comes before it is strictly above it. *)
Lemma scan_min_first (r pre : list float) (bi : nat) (bv : float) :
  (forall x, x ∈ pre ++ r -> PyFloat.isnan x = false) ->
  (bi < length pre)%nat ->
  (forall x, x ∈ pre -> PyFloat.lt x bv = false) ->
  (forall j x, (j < bi)%nat -> pre !! j = Some x -> PyFloat.lt bv x = true) ->
  let res := scan_min r (length pre) (bi, bv) in
  forall j x, (j < fst res)%nat -> (pre ++ r) !! j = Some x -> PyFloat.lt (snd res) x = true.
Proof.
  revert pre bi bv. induction r as [|y r IH]; intros pre bi bv Hnum Hbi Hmin Hfirst; simpl.
  - rewrite app_nil_r. exact Hfirst.
  - replace (pre ++ y :: r) with ((pre ++ [y]) ++ r) in * by now rewrite <- app_assoc.
    replace (S (length pre)) with (length (pre ++ [y])) by (rewrite length_app; simpl; lia).
    destruct (PyFloat.lt y bv) eqn:Hy.
    + apply IH.
      * exact Hnum.
      * rewrite length_app. simpl. lia.
      * intros x Hx. apply elem_of_app in Hx as [Hx|Hx].
        -- destruct (PyFloat.lt x y) eqn:Hxy; [|reflexivity].
           rewrite <- (Hmin x Hx). symmetry. now apply lt_trans with y.
        -- apply list_elem_of_singleton in Hx as ->. apply lt_irrefl.
      * intros j x Hj Hx. rewrite lookup_app_l in Hx by exact Hj.
        assert (Hin : x ∈ pre) by now apply list_elem_of_lookup_2 with j.
        apply lt_of_not_lt with bv; [exact Hy| |now apply Hmin].
        apply Hnum. apply elem_of_app. left. apply elem_of_app. now left.
    + apply IH.
      * exact Hnum.
      * rewrite length_app. simpl. lia.
      * intros x Hx. apply elem_of_app in Hx as [Hx|Hx]; [now apply Hmin|].
        now apply list_elem_of_singleton in Hx as ->.
      * intros j x Hj Hx. apply (Hfirst j x Hj).
        rewrite lookup_app_l in Hx by lia. exact Hx.
Qed.

Lemma argmin_min_first (l : list float) (i : nat) (v : float) :
  (forall x, x ∈ l -> PyFloat.isnan x = false) ->
  argmin_min l = Some (i, v) ->
  forall j x, (j < i)%nat -> l !! j = Some x -> PyFloat.lt v x = true.
Proof.
  destruct l as [|y r]; [discriminate|]. simpl. intros Hnum [= E].
  pose proof (scan_min_first r [y] 0 y Hnum) as H. simpl in H.
  rewrite E in H. simpl in H. apply H.
  - lia.
  - intros x Hx. apply list_elem_of_singleton in Hx as ->. apply lt_irrefl.
  - intros j x Hj. lia.
Qed.

Lemma argmin_min_spec (l : list float) (i : nat) (v : float) :
  argmin_min l = Some (i, v) ->
  l !! i = Some v /\ forall x, x ∈ l -> PyFloat.lt x v = false.
Proof.
  destruct l as [|x r]; [discriminate|]. simpl. intros [= E].
  pose proof (scan_min_spec r [x] 0 x eq_refl) as H. simpl in H.
  rewrite E in H. simpl in H. apply H.
  intros y Hy. apply list_elem_of_singleton in Hy as ->. apply lt_irrefl.
Qed.

Section Properties.

Context `{B : Builtins} `{G : Shapely}.

(** ** Frame rules of the monad *)

Lemma preserves_ret {S A X} (f : S -> X) (a : A) : preserves f (ret a).
Proof. intros s. reflexivity. Qed.

Lemma preserves_raise {S A X} (f : S -> X) (e : exn) : preserves f (raise (A:=A) e).
Proof. intros s. reflexivity. Qed.

Lemma preserves_lift {S A X} (f : S -> X) (r : exn + A) : preserves f (lift r).
Proof. destruct r; intros s; reflexivity. Qed.

Lemma preserves_gets {S A X} (f : S -> X) (g : S -> A) : preserves f (gets g).
Proof. intros s. reflexivity. Qed.

Lemma preserves_bind {S A C X} (f : S -> X) (m : M S A) (k : A -> M S C) :
  preserves f m -> (forall a, preserves f (k a)) -> preserves f (bind m k).
Proof.
  intros Hm Hk s. unfold bind. specialize (Hm s).
  destruct (m s) as [[e|a] s']; simpl in *; [exact Hm|].
  rewrite Hk. exact Hm.
Qed.

Lemma preserves_try_except {S A X} (f : S -> X) (m h : M S A) (es : list exn) :
  preserves f m -> preserves f h -> preserves f (try_except m es h).
Proof.
  intros Hm Hh s. unfold try_except. specialize (Hm s).
  destruct (m s) as [[e|a] s']; simpl in *; [|exact Hm].
  destruct (exn_in e es); simpl; [rewrite Hh|]; exact Hm.
Qed.

Lemma preserves_getattr {A} (f : PrisonGeofencing -> option A) : preserves self (getattr f).
Proof. intros s. unfold getattr. now destruct (f (self s)). Qed.

Lemma preserves_now : preserves self now.
Proof. intros s. reflexivity. Qed.

Lemma preserves_call {A} (m : Meth A) : preserves self m -> preserves PRISONS_DATA (call m).
Proof.
  intros Hm s. unfold call. destruct (PRISONS_DATA s) as [o|] eqn:E; [|exact E].
  specialize (Hm {| self := o; clock := ticks s |}).
  destruct (m _) as [r e]. simpl in *. now rewrite Hm.
Qed.

Lemma preserves_check_location (lat lon : float) : preserves self (check_location lat lon).
Proof.
  unfold check_location.
  apply preserves_bind; [apply preserves_getattr|intros zones].
  apply preserves_bind; [apply preserves_lift|intros [prison|]].
  all: apply preserves_bind; [apply preserves_now|intros ts; apply preserves_ret].
Qed.

Lemma preserves_batch_loop (locations : list (float * float)) (results : list json) :
  preserves self (batch_loop results locations).
Proof.
  revert results. induction locations as [|[lat lon] rest IH]; intros results; simpl.
  - apply preserves_ret.
  - apply preserves_bind; [apply preserves_check_location|intros r; apply IH].
Qed.

Lemma preserves_get_nearest_prison (lat lon maxd : float) :
  preserves self (get_nearest_prison lat lon maxd).
Proof.
  unfold get_nearest_prison.
  apply preserves_bind; [apply preserves_getattr|intros metric].
  destruct (PyFloat.le _ _); [|apply preserves_ret].
  apply preserves_bind; [apply preserves_lift|intros i].
  apply preserves_bind; [apply preserves_getattr|intros gdf].
  apply preserves_bind; [apply preserves_lift|intros r; apply preserves_ret].
Qed.

Lemma preserves_try_lat_lon {X} (f : globals -> X) (v : json) (es : list exn) :
  preserves f (try_lat_lon v es).
Proof.
  apply preserves_try_except; [|apply preserves_ret].
  apply preserves_bind; [apply preserves_lift|intros p; apply preserves_ret].
Qed.

Lemma preserves_parse_locations {X} (f : globals -> X) (locs : list json)
    (acc : list (float * float)) :
  preserves f (parse_locations locs acc).
Proof.
  revert acc. induction locs as [|loc rest IH]; intros acc; simpl.
  - apply preserves_ret.
  - apply preserves_bind; [apply preserves_try_lat_lon|intros [p|]];
      [apply IH|apply preserves_ret].
Qed.

Lemma preserves_route_check_location (data : json) :
  preserves PRISONS_DATA (route_check_location data).
Proof.
  unfold route_check_location.
  apply preserves_bind; [apply preserves_gets|intros [o|]]; [|apply preserves_ret].
  apply preserves_bind; [apply preserves_lift|intros no_lat].
  apply preserves_bind.
  { destruct no_lat; [apply preserves_ret|].
    apply preserves_bind; [apply preserves_lift|intros b; apply preserves_ret]. }
  intros [|]; [apply preserves_ret|].
  apply preserves_bind; [apply preserves_try_lat_lon|intros [[lat lon]|]];
    [|apply preserves_ret].
  apply preserves_bind; [apply preserves_call, preserves_check_location|intros res].
  apply preserves_bind; [apply preserves_lift|intros has_id].
  apply preserves_bind; [|intros res'; apply preserves_ret].
  destruct has_id; [|apply preserves_ret].
  apply preserves_bind; [apply preserves_lift|intros tid; apply preserves_lift].
Qed.

Lemma preserves_route_batch_check (data : json) :
  preserves PRISONS_DATA (route_batch_check data).
Proof.
  unfold route_batch_check.
  apply preserves_bind; [apply preserves_gets|intros [o|]]; [|apply preserves_ret].
  apply preserves_bind; [apply preserves_lift|intros [|]]; [apply preserves_ret|].
  apply preserves_bind; [apply preserves_lift|intros v].
  apply preserves_bind; [apply preserves_lift|intros locs].
  apply preserves_bind; [apply preserves_parse_locations|intros [locations|]];
    [|apply preserves_ret].
  apply preserves_bind; [|intros results; apply preserves_ret].
  apply preserves_call, preserves_batch_loop.
Qed.

(** C9: no query path changes the zone state.  Whatever the instance and
    the inputs, and whether the query returns or raises, the instance
    (loaded frame, margin, metric frame with its zone column, zone frame)
    is the same after [check_location], [batch_check] and
    [get_nearest_prison] as before, and the two views leave the global
    [PRISONS_DATA] as it was. *)
Theorem queries_leave_zone_state (s : env) (a : globals) (lat lon maxd : float)
    (locations : list (float * float)) (data : json) :
  self (snd (check_location lat lon s)) = self s
  /\ self (snd (batch_check locations s)) = self s
  /\ self (snd (get_nearest_prison lat lon maxd s)) = self s
  /\ PRISONS_DATA (snd (route_check_location data a)) = PRISONS_DATA a
  /\ PRISONS_DATA (snd (route_batch_check data a)) = PRISONS_DATA a.
Proof.
  split; [apply preserves_check_location|].
  split; [apply preserves_batch_loop|].
  split; [apply preserves_get_nearest_prison|].
  split; [apply preserves_route_check_location|apply preserves_route_batch_check].
Qed.

(** ** A loaded instance *)

Lemma zip_with_map_map {A X Y Z'} (f : X -> Y -> Z') (g : A -> X) (h : X -> Y)
    (l : list A) :
  zip_with f (map g l) (map h (map g l)) = map (fun x => f (g x) (h (g x))) l.
Proof. induction l as [|x l IH]; simpl; [reflexivity|now rewrite IH]. Qed.

Lemma new_gdf (gdf : GeoDataFrame) (m : Z) : prisons_gdf (new gdf m) = Some gdf.
Proof. reflexivity. Qed.

Lemma new_buffer_meters (gdf : GeoDataFrame) (m : Z) : buffer_meters (new gdf m) = Some m.
Proof. reflexivity. Qed.

Lemma new_metric_eq (gdf : GeoDataFrame) (m : Z) :
  prisons_metric (new gdf m)
  = Some (set_zone (to_crs gdf 3857) (geometry_buffer (to_crs gdf 3857) (- m))).
Proof. reflexivity. Qed.

Lemma new_zones (gdf : GeoDataFrame) (m : Z) :
  prisons_zones (new gdf m)
  = Some {| crs := 4326; rows := map (prepared (crs gdf) m) (rows gdf) |}.
Proof.
  unfold new, __init__, _create_prison_zones, bind, setattr, getattr, modify.
  cbn [self snd fst prisons_zones prisons_metric buffer_meters prisons_gdf clock].
  unfold to_crs at 1. f_equal. f_equal.
  unfold set_zone, geometry_buffer, to_crs. cbn [rows crs].
  rewrite zip_with_map_map, map_map. reflexivity.
Qed.

(** The metric frame keeps the raw geometries, re-expressed in EPSG:3857,
    in its geometry column. *)
Lemma new_metric (gdf : GeoDataFrame) (m : Z) :
  exists metric, prisons_metric (new gdf m) = Some metric
    /\ map geometry (rows metric)
       = map (fun r => GeoSeries_to_crs (crs gdf) (geometry r) 3857) (rows gdf).
Proof.
  eexists. split; [reflexivity|].
  unfold set_zone, geometry_buffer, to_crs. cbn [rows crs].
  rewrite zip_with_map_map, !map_map. reflexivity.
Qed.

Lemma first_zone_prepared (src m : Z) (pt : geom) (rs : list row) :
  first_zone pt (map (prepared src m) rs)
  = inr (option_map (prepared src m)
           (find (fun r => contains (safety_geometry src m (geometry r)) pt) rs)).
Proof.
  induction rs as [|r rs IH]; simpl; [reflexivity|].
  destruct (contains _ pt); [reflexivity|exact IH].
Qed.

Lemma find_first {A} (p : A -> bool) (l : list A) (x : A) :
  find p l = Some x ->
  exists pre post, l = pre ++ x :: post /\ p x = true /\ forall y, y ∈ pre -> p y = false.
Proof.
  induction l as [|a l IH]; simpl; [discriminate|].
  destruct (p a) eqn:Ha.
  - intros [= ->]. exists [], l. split; [reflexivity|]. split; [exact Ha|].
    intros y Hy. now apply elem_of_nil in Hy.
  - intros H. destruct (IH H) as (pre & post & -> & Hx & Hpre).
    exists (a :: pre), post. split; [reflexivity|]. split; [exact Hx|].
    intros y Hy. apply elem_of_cons in Hy as [->|Hy]; auto.
Qed.

Lemma find_app_first {A} (p : A -> bool) (pre post : list A) (x : A) :
  (forall y, y ∈ pre -> p y = false) -> p x = true ->
  find p (pre ++ x :: post) = Some x.
Proof.
  intros Hpre Hx. induction pre as [|a pre IH]; simpl.
  - now rewrite Hx.
  - rewrite (Hpre a) by apply list_elem_of_here.
    apply IH. intros y Hy. apply Hpre. now apply list_elem_of_further.
Qed.

Lemma find_none_iff {A} (p : A -> bool) (l : list A) :
  find p l = None <-> forall y, y ∈ l -> p y = false.
Proof.
  induction l as [|a l IH]; simpl.
  - split; [|reflexivity]. intros _ y Hy. now apply elem_of_nil in Hy.
  - destruct (p a) eqn:Ha.
    + split; [discriminate|]. intros H. rewrite (H a) in Ha by apply list_elem_of_here.
      discriminate.
    + rewrite IH. split.
      * intros H y Hy. apply elem_of_cons in Hy as [->|Hy]; auto.
      * intros H y Hy. apply H. now apply list_elem_of_further.
Qed.

(** What [check_location] does on a loaded instance: it returns, takes
    one reading of the clock, and answers from the first row, in the
    order of the frame, whose zone contains the point. *)
Lemma check_location_loaded (gdf : GeoDataFrame) (m : Z) (t : nat) (lat lon : float) :
  exists res,
    check_location lat lon (loaded gdf m t) = (inr res, loaded gdf m (S t))
    /\ (exists fields, res = JObj fields)
    /\ field "coordinates" res = Some (coordinates lat lon)
    /\ field "timestamp" res = Some (JStr (isoformat t))
    /\ match find (fun r => contains (safety_geometry (crs gdf) m (geometry r))
                                     (Point lon lat)) (rows gdf) with
       | Some prison =>
           field "inside_prison" res = Some (JBool true)
           /\ field "risk_level" res = Some (JStr "HIGH")
           /\ field "action" res = Some (JStr "BLOCK")
           /\ field "prison_info" res = Some (prison_info prison)
       | None =>
           field "inside_prison" res = Some (JBool false)
           /\ field "risk_level" res = Some (JStr "LOW")
           /\ field "action" res = Some (JStr "ALLOW")
           /\ field "prison_info" res = Some JNull
       end.
Proof.
  unfold check_location, bind, getattr, loaded. cbn [self].
  rewrite new_zones. cbn [rows]. rewrite first_zone_prepared. cbn [lift ret].
  destruct (find _ (rows gdf)) as [prison|]; cbn [now clock self];
    eexists; (split; [reflexivity|]); (split; [eexists; reflexivity|]);
    repeat split; reflexivity.
Qed.

(** ** Containment queries *)

Lemma find_ext_in {A} (p q : A -> bool) (l : list A) :
  (forall x, x ∈ l -> p x = q x) -> find p l = find q l.
Proof.
  induction l as [|a l IH]; intros H; simpl; [reflexivity|].
  rewrite (H a) by apply list_elem_of_here.
  destruct (q a); [reflexivity|].
  apply IH. intros x Hx. apply H. now apply list_elem_of_further.
Qed.

(** C6, as the code has it: when the query point is inside the safety
    geometries of several zones, and the zone column of the instance
    tests the point as these safety geometries do, [check_location]
    answers with the zone that comes first in the order of the loaded
    frame among those containing the point, whatever the ids: the
    verdict carries the id of that zone and its name, operator, state and
    city columns (the defaults where the frame has no such column).  A
    repeated identical query, at any later reading of the clock, names
    the same zone. *)
Theorem check_location_first_in_frame_order (gdf : GeoDataFrame) (m : Z) (t : nat)
    (lat lon : float) (pre post : list row) (prison : row) :
  let point := Point lon lat in
  let inside r := contains (spec_safety_geometry (crs gdf) m (geometry r)) point in
  (forall r, r ∈ rows gdf ->
     contains (safety_geometry (crs gdf) m (geometry r)) point = inside r) ->
  rows gdf = pre ++ prison :: post ->
  (forall r, r ∈ pre -> inside r = false) ->
  inside prison = true ->
  exists res info,
    fst (check_location lat lon (loaded gdf m t)) = inr res
    /\ field "inside_prison" res = Some (JBool true)
    /\ field "risk_level" res = Some (JStr "HIGH")
    /\ field "prison_info" res = Some info
    /\ field "osm_id" info = Some (JInt (osm_id prison))
    /\ field "name" info
       = Some (default (JStr "Prisão não identificada") (tags prison !! "name"))
    /\ field "operator" info = Some (default (JStr "N/A") (tags prison !! "operator"))
    /\ field "state" info = Some (default (JStr "N/A") (tags prison !! "addr:state"))
    /\ field "city" info = Some (default (JStr "N/A") (tags prison !! "addr:city"))
    /\ forall t', exists res',
         fst (check_location lat lon (loaded gdf m t')) = inr res'
         /\ field "inside_prison" res' = Some (JBool true)
         /\ field "prison_info" res' = Some info.
Proof.
  intros point inside Hagree Hrows Hpre Hhit.
  assert (Hfind : find (fun r => contains (safety_geometry (crs gdf) m (geometry r)) point)
                    (rows gdf) = Some prison).
  { rewrite (find_ext_in _ inside _ Hagree), Hrows. now apply find_app_first. }
  assert (Hany : forall u, exists r,
            fst (check_location lat lon (loaded gdf m u)) = inr r
            /\ field "inside_prison" r = Some (JBool true)
            /\ field "risk_level" r = Some (JStr "HIGH")
            /\ field "prison_info" r = Some (prison_info prison)).
  { intros u.
    destruct (check_location_loaded gdf m u lat lon) as (r & Hrun & _ & _ & _ & Hr).
    fold point in Hr. rewrite Hfind in Hr. destruct Hr as (Hin & Hrisk & _ & Hinfo).
    exists r. now rewrite Hrun. }
  destruct (Hany t) as (res & Hrun & Hin & Hrisk & Hinfo).
  exists res, (prison_info prison).
  split; [exact Hrun|]. split; [exact Hin|]. split; [exact Hrisk|]. split; [exact Hinfo|].
  split; [reflexivity|]. split; [reflexivity|]. split; [reflexivity|].
  split; [reflexivity|]. split; [reflexivity|].
  intros t'. destruct (Hany t') as (res' & Hrun' & Hin' & _ & Hinfo').
  exists res'. auto.
Qed.

(** ** Batches *)

Lemma batch_loop_loaded (gdf : GeoDataFrame) (m : Z) (locations : list (float * float))
    (acc : list json) (t : nat) :
  exists results,
    batch_loop acc locations (loaded gdf m t)
    = (inr (acc ++ results), loaded gdf m (t + length locations))
    /\ length results = length locations
    /\ forall i lat lon, locations !! i = Some (lat, lon) ->
         exists r, results !! i = Some r
           /\ fst (check_location lat lon (loaded gdf m (t + i))) = inr r.
Proof.
  revert acc t. induction locations as [|[lat lon] rest IH]; intros acc t.
  - exists []. simpl. rewrite app_nil_r, Nat.add_0_r. repeat split.
    intros i ? ? H. now rewrite lookup_nil in H.
  - destruct (check_location_loaded gdf m t lat lon) as (res & Hrun & _).
    destruct (IH (acc ++ [res]) (S t)) as (results & Hloop & Hlen & Hnth).
    exists (res :: results). split; [|split].
    + simpl. unfold bind. rewrite Hrun, Hloop. rewrite <- app_assoc. simpl.
      do 2 f_equal. lia.
    + simpl. now rewrite Hlen.
    + intros [|i] lat' lon' Hi; simpl in Hi.
      * injection Hi as <- <-. exists res. rewrite Nat.add_0_r, Hrun. now split.
      * destruct (Hnth i lat' lon' Hi) as (r & Hr & Hc).
        exists r. split; [exact Hr|]. now rewrite <- Nat.add_succ_comm.
Qed.

(** C8: [batch_check] returns one result per input point, in the order of
    the input: the result list is as long as the input, and its [i]-th
    element is what [check_location] returns for the [i]-th point (at the
    clock reading the batch has reached by then, which only shows in the
    timestamp). *)
Theorem batch_check_pointwise (gdf : GeoDataFrame) (m : Z) (t : nat)
    (locations : list (float * float)) :
  exists results,
    fst (batch_check locations (loaded gdf m t)) = inr results
    /\ length results = length locations
    /\ forall i lat lon, locations !! i = Some (lat, lon) ->
         exists r, results !! i = Some r
           /\ fst (check_location lat lon (loaded gdf m (t + i))) = inr r.
Proof.
  destruct (batch_loop_loaded gdf m locations [] t) as (results & Hrun & Hlen & Hnth).
  exists results. unfold batch_check. rewrite Hrun. auto.
Qed.

(** ** Preparing the zones *)

Lemma set_zone_rows_again (d : Z) (l : list row) :
  let again := zip_with (fun r z => {| osm_id := osm_id r; tags := tags r;
                                       geometry := geometry r; zone := Some z |}) in
  let series l := map (fun r => buffer (geometry r) d) l in
  again (again l (series l)) (series (again l (series l))) = again l (series l).
Proof.
  induction l as [|r l IH]; simpl; [reflexivity|].
  simpl in IH. now rewrite IH.
Qed.

Lemma set_zone_again (df : GeoDataFrame) (d : Z) :
  let df' := set_zone df (geometry_buffer df d) in
  set_zone df' (geometry_buffer df' d) = df'.
Proof.
  unfold set_zone, geometry_buffer. cbn [rows crs]. f_equal.
  apply set_zone_rows_again.
Qed.

(** C7: the safety geometries are a function of the raw geometries, the
    CRS of the file and the margin, and of nothing else.  Running the
    prepare step [_create_prison_zones] again on a loaded instance gives
    back the very same instance; loading does not depend on the clock;
    the zone column is, row by row, [buffer] applied to the raw geometry
    taken to EPSG:3857, so two frames with the same geometries and CRS,
    whatever their ids and attributes, get the same zone column.
    (Determinism of [buffer] and [transform] themselves is what it means
    for them to be functions of the interface.) *)
Theorem prepare_is_deterministic (gdf : GeoDataFrame) (m : Z) (t : nat) :
  self (snd (_create_prison_zones (loaded gdf m t))) = new gdf m
  /\ self (snd (__init__ gdf m {| self := blank; clock := t |})) = new gdf m
  /\ exists zones,
       prisons_zones (new gdf m) = Some zones
       /\ map zone (rows zones)
          = map (fun g => Some (safety_geometry (crs gdf) m g)) (map geometry (rows gdf))
       /\ forall gdf' zones',
            crs gdf' = crs gdf ->
            map geometry (rows gdf') = map geometry (rows gdf) ->
            prisons_zones (new gdf' m) = Some zones' ->
            map zone (rows zones') = map zone (rows zones).
Proof.
  split; [|split].
  - unfold _create_prison_zones, bind, getattr, setattr, modify, loaded.
    cbn [self clock snd fst]. rewrite new_metric_eq. cbn [self clock snd fst].
    rewrite new_buffer_meters.
    cbn [self clock snd fst prisons_metric prisons_gdf buffer_meters prisons_zones].
    rewrite set_zone_again. reflexivity.
  - reflexivity.
  - assert (Hcol : forall g : GeoDataFrame,
              map zone (map (prepared (crs g) m) (rows g))
              = map (fun x => Some (safety_geometry (crs g) m x)) (map geometry (rows g))).
    { intros g. rewrite !map_map. reflexivity. }
    eexists. split; [apply new_zones|]. cbn [rows]. split; [apply Hcol|].
    intros gdf' zones' Hcrs Hgeo Hz. rewrite new_zones in Hz. injection Hz as <-.
    cbn [rows]. rewrite !Hcol, Hcrs, Hgeo. reflexivity.
Qed.

(** C4, as the code has it: a zone whose raw geometry is a single point
    is buffered like any other, nothing is skipped.  With a margin that
    is not negative the zone column holds the empty polygon for it, which
    is not the point and contains no query point. *)
Theorem point_zone_is_empty {L : ShapelyLaws G} (gdf : GeoDataFrame) (m : Z) (i : nat)
    (r : row) (x y : float) :
  0 <= m ->
  rows gdf !! i = Some r ->
  geometry r = Point x y ->
  exists zones prison,
    prisons_zones (new gdf m) = Some zones
    /\ rows zones !! i = Some prison
    /\ zone prison = Some polygon_empty
    /\ zone prison <> Some (Point x y)
    /\ forall q, contains polygon_empty q = false.
Proof.
  intros Hm Hi Hgeo.
  assert (Hsafe : safety_geometry (crs gdf) m (geometry r) = polygon_empty).
  { unfold safety_geometry, GeoSeries_to_crs. rewrite Hgeo.
    destruct (crs gdf =? 3857).
    - apply buffer_Point. lia.
    - destruct (transform_Point (crs gdf) 3857 x y) as (x' & y' & ->).
      apply buffer_Point. lia. }
  eexists. exists (prepared (crs gdf) m r).
  split; [apply new_zones|]. cbn [rows].
  split.
  { change (map (prepared (crs gdf) m) (rows gdf)) with (prepared (crs gdf) m <$> rows gdf).
    now rewrite list_lookup_fmap, Hi. }
  cbn [prepared zone]. rewrite Hsafe.
  split; [reflexivity|]. split; [|apply contains_empty].
  intros [= E]. pose proof geom_type_empty as He.
  rewrite E, geom_type_Point in He. discriminate.
Qed.

(** ** The nearest zone *)

Lemma Series_min_all_nan (ds : list float) :
  forallb PyFloat.isnan ds = true -> Series_min ds = nan.
Proof. unfold Series_min. now intros ->. Qed.

Lemma mask_lt (dj di : float) :
  PyFloat.lt (mask dj) (mask di) = false -> PyFloat.lt dj di = false.
Proof.
  unfold mask. destruct (PyFloat.isnan di) eqn:Hi; [intros _; now apply lt_nan_r|].
  destruct (PyFloat.isnan dj) eqn:Hj; [intros _; now apply lt_nan_l|auto].
Qed.

(** A series with a number in it has a first least entry: [idxmin] is
    its index, [min] its value, and no entry is below it. *)
Lemma Series_min_idxmin (ds : list float) :
  forallb PyFloat.isnan ds = false ->
  exists i di,
    Series_idxmin ds = inr i
    /\ ds !! i = Some di
    /\ mask di = Series_min ds
    /\ forall j dj, ds !! j = Some dj -> PyFloat.lt dj di = false.
Proof.
  intros Hnan. unfold Series_idxmin, Series_min. rewrite Hnan.
  destruct (argmin_min (map mask ds)) as [[i v]|] eqn:E.
  - apply argmin_min_spec in E as [Hi Hmin].
    change (map mask ds) with (mask <$> ds) in Hi, Hmin.
    rewrite list_lookup_fmap in Hi.
    destruct (ds !! i) as [di|] eqn:Hdi; [|discriminate]. injection Hi as <-.
    exists i, di. split; [reflexivity|]. split; [exact Hdi|]. split; [reflexivity|].
    intros j dj Hj. apply mask_lt. apply Hmin.
    apply list_elem_of_fmap. exists dj. split; [reflexivity|].
    now apply list_elem_of_lookup_2 with j.
  - destruct ds; [discriminate Hnan|discriminate E].
Qed.

Lemma mask_number (d : float) : PyFloat.isnan d = false -> mask d = d.
Proof. unfold mask. now intros ->. Qed.

Lemma mask_is_number (d : float) : PyFloat.isnan (mask d) = false.
Proof. unfold mask. destruct (PyFloat.isnan d) eqn:E; [reflexivity|exact E]. Qed.

(** What [min] and [idxmin] give on a series with a finite first least
    entry: an entry below which there is none, and before which every
    entry is strictly above it or is no number. *)
Lemma Series_first_least (ds : list float) (i : nat) (di : float) :
  ds !! i = Some di ->
  PyFloat.lt di infinity = true ->
  (forall j dj, ds !! j = Some dj -> PyFloat.lt dj di = false) ->
  (forall j dj, (j < i)%nat -> ds !! j = Some dj ->
     PyFloat.lt di dj = true \/ PyFloat.isnan dj = true) ->
  Series_min ds = di /\ Series_idxmin ds = inr i.
Proof.
  intros Hi Hfin Hleast Hfirst.
  assert (Hnum : PyFloat.isnan di = false) by now apply lt_isnan_l with infinity.
  assert (Hnan : forallb PyFloat.isnan ds = false).
  { destruct (forallb PyFloat.isnan ds) eqn:E; [|reflexivity].
    rewrite forallb_forall in E. rewrite <- Hnum. symmetry. apply E.
    apply list_elem_of_In. now apply list_elem_of_lookup_2 with i. }
  unfold Series_min, Series_idxmin. rewrite Hnan.
  destruct (argmin_min (map mask ds)) as [[i0 v]|] eqn:E;
    [|destruct ds; [discriminate Hnan|discriminate E]].
  pose proof (argmin_min_spec _ _ _ E) as [Hi0 Hmin].
  assert (Hbefore : forall j x, (j < i0)%nat -> map mask ds !! j = Some x ->
                      PyFloat.lt v x = true).
  { apply argmin_min_first; [|exact E].
    intros x Hx. change (map mask ds) with (mask <$> ds) in Hx.
    apply list_elem_of_fmap in Hx as (d & -> & _). apply mask_is_number. }
  change (map mask ds) with (mask <$> ds) in Hi0, Hmin, Hbefore.
  rewrite list_lookup_fmap in Hi0.
  destruct (ds !! i0) as [d0|] eqn:Hd0; [|discriminate]. injection Hi0 as <-.
  assert (Hdi : PyFloat.lt di (mask d0) = false).
  { rewrite <- (mask_number di Hnum) at 1. apply Hmin.
    apply list_elem_of_fmap. exists di. split; [reflexivity|].
    now apply list_elem_of_lookup_2 with i. }
  assert (Heq : i0 = i).
  { destruct (Nat.lt_trichotomy i0 i) as [Hlt|[Heq|Hgt]]; [exfalso|exact Heq|exfalso].
    - destruct (Hfirst i0 d0 Hlt Hd0) as [Hd|Hd].
      + rewrite (mask_number d0 (lt_isnan_r _ _ Hd)) in Hdi. congruence.
      + unfold mask in Hdi. rewrite Hd in Hdi. congruence.
    - assert (Hv : PyFloat.lt (mask d0) (mask di) = true).
      { apply (Hbefore i (mask di) Hgt). now rewrite list_lookup_fmap, Hi. }
      rewrite (mask_number di Hnum) in Hv.
      destruct (PyFloat.isnan d0) eqn:Hd.
      + unfold mask in Hv. rewrite Hd in Hv.
        pose proof (lt_trans _ _ _ Hfin Hv) as Hc. rewrite lt_irrefl in Hc. discriminate.
      + rewrite (mask_number d0 Hd) in Hv. rewrite (Hleast i0 d0 Hd0) in Hv. discriminate. }
  subst i0. rewrite Hi in Hd0. injection Hd0 as <-.
  now rewrite (mask_number di Hnum).
Qed.

(** The distances the method compares on a loaded instance are the raw
    ones, whatever the margin. *)
Lemma loaded_distances (gdf : GeoDataFrame) (m : Z) (lat lon : float) :
  exists metric, prisons_metric (new gdf m) = Some metric
    /\ geometry_distance metric (GeoSeries_to_crs 4326 (Point lon lat) 3857)
       = raw_distances gdf lat lon.
Proof.
  destruct (new_metric gdf m) as (metric & Hm & Hgeo). exists metric. split; [exact Hm|].
  unfold geometry_distance, raw_distances.
  rewrite <- (map_map geometry (fun g => distance g _)), Hgeo, map_map. reflexivity.
Qed.

(** C5: [get_nearest_prison] on a loaded zone set always returns.  The
    distances it compares are those from the query point to the raw
    geometries, both taken to EPSG:3857; the zone column and the margin
    play no part.  Take the nearest zone: the first row, in the order of
    the frame, at a finite distance below which there is none.  If that
    distance, in kilometres, is at most [max_distance_km], the answer
    carries the id of that zone (the numpy integer of the cell) and its
    name, operator and state columns, with the distance in kilometres
    rounded to three decimals and in metres rounded to one; otherwise the
    answer is [None].  It is [None] as well when no zone is at any
    distance (an empty frame). *)
Theorem nearest_prison_is_nearest (gdf : GeoDataFrame) (m : Z) (t : nat)
    (lat lon max_distance_km : float) :
  let ds := raw_distances gdf lat lon in
  let answer := fst (get_nearest_prison lat lon max_distance_km (loaded gdf m t)) in
  (forall i nearest di,
     rows gdf !! i = Some nearest ->
     ds !! i = Some di ->
     PyFloat.lt di infinity = true ->
     (forall j dj, ds !! j = Some dj -> PyFloat.lt dj di = false) ->
     (forall j dj, (j < i)%nat -> ds !! j = Some dj ->
        PyFloat.lt di dj = true \/ PyFloat.isnan dj = true) ->
     answer
     = inr (if PyFloat.le (di / 1000) max_distance_km
            then Some (dict [("distance_km", JFloat (round (di / 1000) 3));
                             ("distance_meters", JFloat (round di 1));
                             ("prison_info",
                              dict [("osm_id", JNumpyInt (osm_id nearest));
                                    ("name", default (JStr "N/A") (tags nearest !! "name"));
                                    ("operator",
                                     default (JStr "N/A") (tags nearest !! "operator"));
                                    ("state",
                                     default (JStr "N/A") (tags nearest !! "addr:state"))])])
            else None))
  /\ ((forall d, d ∈ ds -> PyFloat.isnan d = true) -> answer = inr None).
Proof.
  intros ds answer.
  destruct (loaded_distances gdf m lat lon) as (metric & Hm & Hds). fold ds in Hds.
  assert (Hrun : answer
                 = fst (let km := (Series_min ds / 1000)%float in
                        if PyFloat.le km max_distance_km
                        then bind (lift (Series_idxmin ds))
                               (fun nearest_idx =>
                                  bind (getattr prisons_gdf)
                                    (fun gdf0 =>
                                       bind (lift (iloc gdf0 nearest_idx))
                                         (fun nearest_prison =>
                                            ret (Some (dict [("distance_km",
                                                              JFloat (round km 3));
                                                             ("distance_meters",
                                                              JFloat (round (Series_min ds) 1));
                                                             ("prison_info",
                                                              nearest_info nearest_prison)])))))
                               (loaded gdf m t)
                        else ret None (loaded gdf m t))).
  { unfold answer, get_nearest_prison. unfold bind at 1. unfold getattr at 1, loaded at 1.
    cbn [self]. rewrite Hm, Hds. fold (loaded gdf m t).
    destruct (PyFloat.le _ max_distance_km); reflexivity. }
  split.
  - intros i nearest di Hrow Hdi Hfin Hleast Hfirst.
    destruct (Series_first_least ds i di Hdi Hfin Hleast Hfirst) as [Hmin Hidx].
    rewrite Hrun, Hmin, Hidx. cbn zeta.
    destruct (PyFloat.le (di / 1000) max_distance_km); [|reflexivity].
    unfold bind, getattr, loaded. cbn [lift ret self]. rewrite new_gdf.
    unfold iloc. rewrite Hrow. reflexivity.
  - intros Hall. rewrite Hrun. cbn zeta.
    assert (Hnan : forallb PyFloat.isnan ds = true).
    { apply forallb_forall. intros d Hd. apply Hall. now apply list_elem_of_In. }
    rewrite (Series_min_all_nan _ Hnan), le_nan_l; reflexivity.
Qed.

(** ** The views *)

Lemma truthy_dict (d : gmap string json) (k : string) (v : json) :
  d !! k = Some v -> truthy (JObj d) = true.
Proof.
  intros Hk. simpl. destruct (Nat.eqb_spec (size d) 0) as [E|]; [|reflexivity].
  apply map_size_empty_iff in E. subst. now rewrite lookup_empty in Hk.
Qed.

Lemma py_in_dict (d : gmap string json) (k : string) (v : json) :
  d !! k = Some v -> py_in k (JObj d) = inr true.
Proof. intros Hk. simpl. rewrite Hk. reflexivity. Qed.

Lemma absent_dict (d : gmap string json) (k k' : string) (v v' : json) :
  d !! k = Some v -> d !! k' = Some v' -> absent (JObj d) k' = inr false.
Proof.
  intros Hk Hk'. unfold absent.
  now rewrite (truthy_dict d k v Hk), (py_in_dict d k' v' Hk').
Qed.

Lemma try_lat_lon_run (v : json) (es : list exn) (s : globals) :
  try_lat_lon v es s
  = match lat_lon v with
    | inr p => (inr (Some p), s)
    | inl e => if exn_in e es then (inr None, s) else (inl e, s)
    end.
Proof. unfold try_lat_lon, try_except, bind. now destruct (lat_lon v). Qed.

Lemma call_loaded {A} (mth : Meth A) (gdf : GeoDataFrame) (m : Z) (t t' : nat)
    (r : exn + A) :
  mth (loaded gdf m t) = (r, loaded gdf m t') ->
  call mth (serving gdf m t) = (r, serving gdf m t').
Proof. unfold call, serving, loaded. cbn [PRISONS_DATA ticks]. now intros ->. Qed.

Lemma parse_locations_all (locs : list json) (ps acc : list (float * float)) (s : globals) :
  Forall2 (fun loc p => lat_lon loc = inr p) locs ps ->
  parse_locations locs acc s = (inr (Some (acc ++ ps)), s).
Proof.
  intros H. revert acc. induction H as [|loc p locs ps Hp _ IH]; intros acc; simpl.
  - now rewrite app_nil_r.
  - unfold bind. rewrite try_lat_lon_run, Hp, IH. now rewrite <- app_assoc.
Qed.

Lemma parse_locations_first_failure (pre post : list json) (loc : json)
    (ps acc : list (float * float)) (e : exn) (s : globals) :
  Forall2 (fun loc p => lat_lon loc = inr p) pre ps ->
  lat_lon loc = inl e ->
  exn_in e [ValueError; TypeError; KeyError] = true ->
  parse_locations (pre ++ loc :: post) acc s = (inr None, s).
Proof.
  intros H He Hin. revert acc. induction H as [|x p pre ps Hp _ IH]; intros acc; simpl.
  - unfold bind. now rewrite try_lat_lon_run, He, Hin.
  - unfold bind. rewrite try_lat_lon_run, Hp. apply IH.
Qed.

(** C3, as the code has it: there is no range check.  Whenever the body
    holds a latitude and a longitude that [float()] accepts, in range or
    not, the method returns a containment verdict and the view answers
    200 with that verdict (plus the [transaction_id], when one was
    sent); the view answers 400 only for missing or non-numeric
    coordinates. *)
Theorem check_location_has_no_range_check (gdf : GeoDataFrame) (m : Z) (t : nat)
    (d : gmap string json) (a b : json) (lat lon : float) :
  d !! "latitude" = Some a ->
  d !! "longitude" = Some b ->
  to_float a = inr lat ->
  to_float b = inr lon ->
  exists res body,
    fst (check_location lat lon (loaded gdf m t)) = inr res
    /\ (exists inside, field "inside_prison" res = Some (JBool inside))
    /\ fst (route_check_location (JObj d) (serving gdf m t)) = inr (body, 200)
    /\ forall k, k <> "transaction_id" -> field k body = field k res.
Proof.
  intros Ha Hb Hlat Hlon.
  destruct (check_location_loaded gdf m t lat lon)
    as (res & Hrun & (fields & ->) & _ & _ & Hres).
  assert (Hin : exists inside, field "inside_prison" (JObj fields) = Some (JBool inside)).
  { destruct (find _ (rows gdf)); destruct Hres as (Hin & _); eauto. }
  assert (Hconv : lat_lon (JObj d) = inr (lat, lon)).
  { unfold lat_lon. cbn [getitem]. now rewrite Ha, Hlat, Hb, Hlon. }
  assert (Hroute : exists body,
            fst (route_check_location (JObj d) (serving gdf m t)) = inr (body, 200)
            /\ forall k, k <> "transaction_id" -> field k body = field k (JObj fields)).
  { unfold route_check_location, bind, gets. cbn [serving PRISONS_DATA].
    rewrite (absent_dict d _ _ _ _ Ha Ha). cbn [lift ret].
    rewrite (py_in_dict d _ _ Hb). cbn [lift ret negb].
    rewrite try_lat_lon_run, Hconv.
    fold (serving gdf m t). rewrite (call_loaded _ _ _ _ _ _ Hrun).
    cbn [py_in lift].
    destruct (d !! "transaction_id") as [tid|] eqn:Htid; cbn [bool_decide ret].
    - rewrite bool_decide_eq_true_2 by eauto. cbn [ret getitem].
      rewrite Htid. cbn [lift ret setitem fst].
      eexists. split; [reflexivity|].
      intros k Hk. cbn [field]. now rewrite lookup_insert_ne.
    - rewrite bool_decide_eq_false_2 by (intros [? ?]; discriminate). cbn [ret fst].
      eexists. split; [reflexivity|auto]. }
  destruct Hroute as (body & Hbody & Hsame).
  exists (JObj fields), body. rewrite Hrun. auto.
Qed.

(** C2, as the code has it: the batch view is all-or-nothing.  When
    every element of [locations] converts (any numbers, in range or
    not), it answers 200 with one verdict per element, in order, those of
    [batch_check]; when the first element that fails to convert fails
    with a [ValueError], a [TypeError] or a [KeyError] (a text that is no
    number, null or another value that is no number, an element that is
    no object, a missing key), the view answers 400 [Invalid location
    format] for the whole request, no verdict is computed and the clock
    is not read.  (Any other exception of the conversion is not caught
    by the view; this statement leaves it out.) *)
Theorem batch_view_is_all_or_nothing (gdf : GeoDataFrame) (m : Z) (t : nat)
    (d : gmap string json) (locs : list json) :
  d !! "locations" = Some (JArr locs) ->
  (forall locations,
     Forall2 (fun loc p => lat_lon loc = inr p) locs locations ->
     exists results,
       fst (batch_check locations (loaded gdf m t)) = inr results
       /\ length results = length locs
       /\ fst (route_batch_check (JObj d) (serving gdf m t))
          = inr (dict [("total", JInt (Z.of_nat (length locs)));
                       ("results", JArr results)], 200))
  /\ (forall pre loc post converted e,
        locs = pre ++ loc :: post ->
        Forall2 (fun loc p => lat_lon loc = inr p) pre converted ->
        lat_lon loc = inl e ->
        exn_in e [ValueError; TypeError; KeyError] = true ->
        route_batch_check (JObj d) (serving gdf m t)
        = (inr (error "Invalid location format" 400), serving gdf m t)).
Proof.
  intros Hd.
  assert (Hhead :
            route_batch_check (JObj d) (serving gdf m t)
            = bind (parse_locations locs [])
                (fun parsed =>
                   match parsed with
                   | None => ret (error "Invalid location format" 400)
                   | Some locations =>
                       bind (call (batch_check locations))
                         (fun results =>
                            ret (dict [("total", JInt (Z.of_nat (length results)));
                                       ("results", JArr results)], 200))
                   end) (serving gdf m t)).
  { unfold route_batch_check at 1. unfold bind at 1. unfold gets.
    cbn [serving PRISONS_DATA]. unfold bind at 1.
    rewrite (absent_dict d _ _ _ _ Hd Hd). cbn [lift ret].
    unfold bind at 1. cbn [getitem]. rewrite Hd. cbn [lift ret].
    unfold bind at 1. cbn [py_iter lift ret]. reflexivity. }
  split.
  - intros locations Hall.
    destruct (batch_loop_loaded gdf m locations [] t) as (results & Hrun & Hlen & _).
    exists results. unfold batch_check. rewrite Hrun.
    assert (Hlocs : length locations = length locs)
      by (symmetry; eapply Forall2_length; eauto).
    split; [reflexivity|]. split; [congruence|].
    rewrite Hhead. unfold bind at 1. rewrite (parse_locations_all _ _ _ _ Hall).
    rewrite app_nil_l. unfold bind. unfold batch_check.
    rewrite (call_loaded _ _ _ _ _ _ Hrun). cbn [ret fst]. rewrite app_nil_l.
    rewrite Hlen, Hlocs. reflexivity.
  - intros pre loc post converted e -> Hpre He Hin.
    rewrite Hhead. unfold bind at 1.
    now rewrite (parse_locations_first_failure _ _ _ _ _ _ _ Hpre He Hin).
Qed.

End Properties.

(** ** The executable instance at work *)

#[global] Instance ref_laws : ShapelyLaws Ref.shapely.
Proof.
  split.
  - intros src dst x y. simpl. unfold Ref.transform.
    destruct ((src =? 4326) && (dst =? 3857)); [simpl; eauto|].
    destruct ((src =? 3857) && (dst =? 4326)); simpl; eauto.
  - intros x y d Hd. simpl. unfold Ref.buffer.
    destruct (PyFloat.of_int d); [|reflexivity].
    destruct (Z.leb_spec d 0); [reflexivity|lia].
  - reflexivity.
  - reflexivity.
  - intros g. reflexivity.
Qed.


(** The scenario of [test_api.py] on the sample data: the query at the
    very coordinates of the first prison is not reported inside. *)
Example sample_query_at_prison :
  (returned (fst (check_location (-22.8475) (-43.4686) (loaded Ref.sample 50 0)))
     ≫= fun res => Some (field "inside_prison" res, field "action" res))
  = Some (Some (JBool false), Some (JStr "ALLOW")).
Proof. vm_compute. reflexivity. Qed.

(** C1, at the concrete scenario of the specification: zone A is the
    square of one hundredth of a degree, the margin is 100 m, and the
    query is at the centroid, latitude 0.005 and longitude 0.005.  The
    safety geometry of zone A, in degrees, contains the centroid, so the
    verdict should be inside and HIGH, with the info of zone A.  The
    zone column [check_location] tests was never taken back to degrees:
    it contains the point 556 m east and north of the corner, and not
    the centroid given in degrees.  The verdict is outside, LOW, with no
    zone info. *)
Theorem centroid_is_reported_outside :
  let raw := Ref.SBox 0 0 0.01 0.01 in
  contains (spec_safety_geometry 4326 100 raw) (Point 0.005 0.005) = true
  /\ (prisons_zones (new Ref.zone_a 100) ≫= fun z => Some (map zone (rows z)))
     = Some [Some (safety_geometry 4326 100 raw)]
  /\ contains (safety_geometry 4326 100 raw) (Point 556 556) = true
  /\ contains (safety_geometry 4326 100 raw) (Point 0.005 0.005) = false
  /\ (returned (fst (check_location 0.005 0.005 (loaded Ref.zone_a 100 0)))
        ≫= fun res => Some (field "inside_prison" res, field "risk_level" res,
                            field "prison_info" res))
     = Some (Some (JBool false), Some (JStr "LOW"), Some JNull).
Proof. vm_compute. repeat split; reflexivity. Qed.

(** C10, at a concrete input: the yard is the square from -0.01 to 0.01
    degrees, the margin is 0, and the query is at latitude 0 and
    longitude 0.01, on the eastern edge of the yard.  With no margin the
    safety geometry is the yard itself; the query point touches it and
    is not contained in it, so the verdict should be outside.  The zone
    column is the yard in metres, some 1113 m to each side, and the
    point given in degrees is well inside that: the verdict is inside,
    HIGH, naming the yard. *)
Theorem boundary_point_is_reported_inside :
  let raw := Ref.SBox (-0.01) (-0.01) 0.01 0.01 in
  spec_safety_geometry 4326 0 raw = raw
  /\ touches (spec_safety_geometry 4326 0 raw) (Point 0.01 0) = true
  /\ contains (spec_safety_geometry 4326 0 raw) (Point 0.01 0) = false
  /\ contains (safety_geometry 4326 0 raw) (Point 0.01 0) = true
  /\ (returned (fst (check_location 0 0.01 (loaded Ref.yard 0 0)))
        ≫= fun res => Some (field "inside_prison" res, field "risk_level" res,
                            field "prison_info" res ≫= field "name"))
     = Some (Some (JBool true), Some (JStr "HIGH"), Some (JStr "Yard")).
Proof. vm_compute. repeat split; reflexivity. Qed.

(** C2, refuted as stated: one element with a null latitude between two
    good ones makes the view refuse the whole batch, with no result for
    the other two; and a latitude of 200 is no error for the code, that
    element gets an ordinary verdict. *)
Lemma batch_partial_failure_counterexample :
  let good1 := dict [("latitude", JFloat (-22.9519)); ("longitude", JFloat (-43.2105))] in
  let good2 := dict [("latitude", JFloat (-15.7942)); ("longitude", JFloat (-47.8822))] in
  let null := dict [("latitude", JNull); ("longitude", JFloat (-46.6333))] in
  let far := dict [("latitude", JInt 200); ("longitude", JFloat (-46.6333))] in
  fst (route_batch_check (dict [("locations", JArr [good1; null; good2])])
         (serving Ref.sample 50 0))
  = inr (error "Invalid location format" 400)
  /\ field "results" (fst (error "Invalid location format" 400)) = None
  /\ (returned (fst (route_batch_check (dict [("locations", JArr [good1; far; good2])])
                      (serving Ref.sample 50 0)))
        ≫= fun r => field "results" (fst r)
        ≫= fun rs => match rs with
                     | JArr l => Some (map (fun v => (field "error" v, field "risk_level" v)) l)
                     | _ => None
                     end)
     = Some [(None, Some (JStr "LOW")); (None, Some (JStr "LOW")); (None, Some (JStr "LOW"))].
Proof. vm_compute. repeat split; reflexivity. Qed.

Lemma batch_view_is_all_or_nothing_witness :
  let good := dict [("latitude", JFloat (-22.9519)); ("longitude", JFloat (-43.2105))] in
  let far := dict [("latitude", JInt 200); ("longitude", JStr "-46.6333")] in
  let null := dict [("latitude", JNull); ("longitude", JFloat (-46.6333))] in
  (exists results,
     fst (batch_check [((-22.9519)%float, (-43.2105)%float); (200%float, (-46.6333)%float)]
            (loaded Ref.sample 50 0)) = inr results
     /\ length results = 2%nat
     /\ fst (route_batch_check (dict [("locations", JArr [good; far])])
               (serving Ref.sample 50 0))
        = inr (dict [("total", JInt 2); ("results", JArr results)], 200))
  /\ route_batch_check (dict [("locations", JArr [good; null])]) (serving Ref.sample 50 0)
     = (inr (error "Invalid location format" 400), serving Ref.sample 50 0).
Proof.
  intros good far null. split.
  - refine (proj1 (batch_view_is_all_or_nothing Ref.sample 50 0
                     (list_to_map [("locations", JArr [good; far])]) [good; far] _)
              [((-22.9519)%float, (-43.2105)%float); (200%float, (-46.6333)%float)] _).
    + vm_compute. reflexivity.
    + repeat constructor.
  - refine (proj2 (batch_view_is_all_or_nothing Ref.sample 50 0
                     (list_to_map [("locations", JArr [good; null])]) [good; null] _)
              [good] null [] [((-22.9519)%float, (-43.2105)%float)] TypeError _ _ _ _).
    + vm_compute. reflexivity.
    + reflexivity.
    + repeat constructor.
    + reflexivity.
    + reflexivity.
Defined.

(** C3, refuted as stated: a latitude of 200 is outside [-90, 90], yet
    the method returns a verdict for it and the view answers 200, not an
    error. *)
Lemma out_of_range_counterexample :
  PyFloat.le 200 90 = false
  /\ (returned (fst (check_location 200 0 (loaded Ref.sample 50 0)))
        ≫= field "risk_level") = Some (JStr "LOW")
  /\ (returned (fst (route_check_location
                       (dict [("latitude", JInt 200); ("longitude", JInt 0)])
                       (serving Ref.sample 50 0)))
        ≫= fun r => Some (field "error" (fst r), field "risk_level" (fst r), snd r))
     = Some (None, Some (JStr "LOW"), 200).
Proof. vm_compute. repeat split; reflexivity. Qed.

Lemma check_location_has_no_range_check_witness :
  exists res body,
    fst (check_location 200 0 (loaded Ref.sample 50 0)) = inr res
    /\ (exists inside, field "inside_prison" res = Some (JBool inside))
    /\ fst (route_check_location (dict [("latitude", JInt 200); ("longitude", JStr "0.0")])
              (serving Ref.sample 50 0)) = inr (body, 200)
    /\ forall k, k <> "transaction_id" -> field k body = field k res.
Proof.
  apply (check_location_has_no_range_check Ref.sample 50 0
           (list_to_map [("latitude", JInt 200); ("longitude", JStr "0.0")])
           (JInt 200) (JStr "0.0") 200 0).
  all: vm_compute; reflexivity.
Defined.

(** C4, refuted as stated: the first prison of the sample data is a
    point; with the default margin of 50 m its zone is the empty polygon,
    not that point, and the query at the point itself is not inside. *)
Lemma point_zone_counterexample :
  map geometry (rows Ref.sample) !! 0%nat = Some (Ref.SPoint (-43.4686) (-22.8475))
  /\ (prisons_zones (new Ref.sample 50) ≫= fun z => rows z !! 0%nat ≫= zone)
     = Some Ref.SEmpty
  /\ Ref.SEmpty <> Ref.SPoint (-43.4686) (-22.8475)
  /\ (returned (fst (check_location (-22.8475) (-43.4686) (loaded Ref.sample 50 0)))
        ≫= field "inside_prison") = Some (JBool false).
Proof. vm_compute. repeat split; try reflexivity. discriminate. Qed.

Lemma point_zone_is_empty_witness :
  exists zones prison,
    prisons_zones (new Ref.sample 50) = Some zones
    /\ rows zones !! 0%nat = Some prison
    /\ zone prison = Some Ref.SEmpty
    /\ zone prison <> Some (Ref.SPoint (-43.4686) (-22.8475))
    /\ forall q, Ref.contains Ref.SEmpty q = false.
Proof.
  apply (point_zone_is_empty (L:=ref_laws) Ref.sample 50 0
           (Ref.prison 999001 "Complexo de Gericinó" "Rio de Janeiro" (-43.4686) (-22.8475))
           (-43.4686) (-22.8475)).
  - lia.
  - reflexivity.
  - reflexivity.
Defined.

(** C6, refuted as stated: the point of latitude 0 and longitude 0 is
    inside the safety geometries of both compounds, in degrees as in the
    zone column; their ids are 7 and 3, in this order in the file; the
    verdict names 7, not the lowest id. *)
Lemma lowest_id_counterexample :
  map (fun r => (osm_id r,
                 contains (spec_safety_geometry (crs Ref.adjoining) 50 (geometry r))
                          (Point 0 0),
                 contains (safety_geometry (crs Ref.adjoining) 50 (geometry r))
                          (Point 0 0)))
      (rows Ref.adjoining) = [(7, true, true); (3, true, true)]
  /\ ((returned (fst (check_location 0 0 (loaded Ref.adjoining 50 0)))
         ≫= field "prison_info") ≫= field "osm_id") = Some (JInt 7)
  /\ 3 < 7.
Proof. vm_compute. repeat split; reflexivity. Qed.

Lemma check_location_first_in_frame_order_witness :
  exists res info,
    fst (check_location 0 0 (loaded Ref.adjoining 50 0)) = inr res
    /\ field "inside_prison" res = Some (JBool true)
    /\ field "risk_level" res = Some (JStr "HIGH")
    /\ field "prison_info" res = Some info
    /\ field "osm_id" info = Some (JInt 7)
    /\ field "name" info = Some (JStr "East block")
    /\ field "operator" info = Some (JStr "N/A")
    /\ field "state" info = Some (JStr "N/A")
    /\ field "city" info = Some (JStr "N/A")
    /\ forall t', exists res',
         fst (check_location 0 0 (loaded Ref.adjoining 50 t')) = inr res'
         /\ field "inside_prison" res' = Some (JBool true)
         /\ field "prison_info" res' = Some info.
Proof.
  apply (check_location_first_in_frame_order Ref.adjoining 50 0 0 0 []
           [Ref.compound 3 "West block" (-0.02) (-0.01) 0.01 0.01]
           (Ref.compound 7 "East block" (-0.01) (-0.01) 0.02 0.01)).
  - intros r Hr. apply elem_of_cons in Hr as [->|Hr]; [vm_compute; reflexivity|].
    apply list_elem_of_singleton in Hr as ->. vm_compute. reflexivity.
  - reflexivity.
  - intros r Hr. now apply elem_of_nil in Hr.
  - vm_compute. reflexivity.
Defined.

(** On the sample data the prison nearest to the centre of Rio is the
    third of the file; it is found within 30 km and not within 1 km. *)
Lemma nearest_prison_is_nearest_witness :
  (exists found,
     fst (get_nearest_prison (-22.9068) (-43.1729) 30 (loaded Ref.sample 50 0))
     = inr (Some found)
     /\ (field "prison_info" found ≫= field "osm_id") = Some (JNumpyInt 999003)
     /\ (field "prison_info" found ≫= field "name")
        = Some (JStr "Cadeia Pública José Frederico Marques"))
  /\ fst (get_nearest_prison (-22.9068) (-43.1729) 1 (loaded Ref.sample 50 0)) = inr None
  /\ fst (get_nearest_prison (-22.9068) (-43.1729) 30
            (loaded {| crs := 4326; rows := [] |} 50 0)) = inr None.
Proof.
  assert (Hnearest : forall max_distance_km,
            exists di,
              raw_distances Ref.sample (-22.9068) (-43.1729) !! 2%nat = Some di
              /\ fst (get_nearest_prison (-22.9068) (-43.1729) max_distance_km
                        (loaded Ref.sample 50 0))
                 = inr (if PyFloat.le (di / 1000) max_distance_km
                        then Some (dict [("distance_km", JFloat (round (di / 1000) 3));
                                         ("distance_meters", JFloat (round di 1));
                                         ("prison_info",
                                          dict [("osm_id", JNumpyInt 999003);
                                                ("name", JStr "Cadeia Pública José Frederico Marques");
                                                ("operator", JStr "SEAP-RJ");
                                                ("state", JStr "RJ")])])
                        else None)).
  { intros max_distance_km. eexists. split; [vm_compute; reflexivity|].
    apply (proj1 (nearest_prison_is_nearest Ref.sample 50 0 (-22.9068) (-43.1729)
                    max_distance_km) 2%nat
             (Ref.prison 999003 "Cadeia Pública José Frederico Marques" "Rio de Janeiro"
                (-43.3088) (-22.8812))).
    - reflexivity.
    - vm_compute. reflexivity.
    - vm_compute. reflexivity.
    - intros [|[|[|[|[|j]]]]] dj Hj; vm_compute in Hj; try discriminate;
        injection Hj as <-; vm_compute; reflexivity.
    - intros [|[|j]] dj Hlt Hj; [| |lia]; vm_compute in Hj; injection Hj as <-;
        left; vm_compute; reflexivity. }
  split; [|split].
  - destruct (Hnearest 30%float) as (di & Hdi & Hrun).
    vm_compute in Hdi. injection Hdi as <-.
    eexists. split; [rewrite Hrun; vm_compute; reflexivity|].
    split; vm_compute; reflexivity.
  - destruct (Hnearest 1%float) as (di & Hdi & Hrun).
    vm_compute in Hdi. injection Hdi as <-. rewrite Hrun. vm_compute. reflexivity.
  - apply (proj2 (nearest_prison_is_nearest {| crs := 4326; rows := [] |} 50 0
                    (-22.9068) (-43.1729) 30)).
    intros d Hd. now apply elem_of_nil in Hd.
Defined.

(** * More of the module *)

(** ** The order [<=] of floats *)

Lemma lex_pos_Eq e1 m1 e2 m2 :
  PyFloat.lex_pos e1 m1 e2 m2 = Eq <-> e1 = e2 /\ m1 = m2.
Proof.
  unfold PyFloat.lex_pos. destruct (Z.compare_spec e1 e2).
  - rewrite Pos.compare_eq_iff. tauto.
  - split; [discriminate|lia].
  - split; [discriminate|lia].
Qed.

Lemma lex_neg_Eq e1 m1 e2 m2 :
  PyFloat.lex_neg e1 m1 e2 m2 = Eq <-> e1 = e2 /\ m1 = m2.
Proof.
  unfold PyFloat.lex_neg. destruct (Z.compare_spec e1 e2).
  - rewrite <- Pos.compare_eq_iff. destruct (Pos.compare m1 m2); simpl; split;
      try discriminate; try tauto; intros [_ ?]; discriminate.
  - split; [discriminate|lia].
  - split; [discriminate|lia].
Qed.

Lemma cmp_le_lex_pos e1 m1 e2 m2 :
  PyFloat.cmp_le (Some (PyFloat.lex_pos e1 m1 e2 m2)) = true
  <-> e1 < e2 \/ (e1 = e2 /\ (m1 <= m2)%positive).
Proof.
  destruct (PyFloat.lex_pos e1 m1 e2 m2) eqn:E; simpl.
  - apply lex_pos_Eq in E. split; [lia|reflexivity].
  - apply lex_pos_Lt in E. split; [lia|reflexivity].
  - split; [discriminate|]. intros H. exfalso.
    unfold PyFloat.lex_pos in E. destruct (Z.compare_spec e1 e2); try discriminate; try lia.
    apply Pos.compare_gt_iff in E. lia.
Qed.

Lemma cmp_le_lex_neg e1 m1 e2 m2 :
  PyFloat.cmp_le (Some (PyFloat.lex_neg e1 m1 e2 m2)) = true
  <-> e2 < e1 \/ (e1 = e2 /\ (m2 <= m1)%positive).
Proof.
  destruct (PyFloat.lex_neg e1 m1 e2 m2) eqn:E; simpl.
  - apply lex_neg_Eq in E. split; [lia|reflexivity].
  - apply lex_neg_Lt in E. split; [lia|reflexivity].
  - split; [discriminate|]. intros H. exfalso.
    unfold PyFloat.lex_neg in E. destruct (Z.compare_spec e1 e2); try discriminate; try lia.
    destruct (Pos.compare_spec m1 m2); simpl in E; try discriminate; lia.
Qed.

Lemma SFcompare_le_trans (x y z : spec_float) :
  PyFloat.cmp_le (SFcompare x y) = true -> PyFloat.cmp_le (SFcompare y z) = true ->
  PyFloat.cmp_le (SFcompare x z) = true.
Proof.
  destruct x as [sx|sx| |sx mx ex], y as [sy|sy| |sy my ey], z as [sz|sz| |sz mz ez];
    simpl; try discriminate; try reflexivity;
    repeat match goal with b : bool |- _ => destruct b end;
    simpl; try discriminate; try reflexivity.
  - change (PyFloat.cmp_le (Some (PyFloat.lex_neg ex mx ey my)) = true ->
            PyFloat.cmp_le (Some (PyFloat.lex_neg ey my ez mz)) = true ->
            PyFloat.cmp_le (Some (PyFloat.lex_neg ex mx ez mz)) = true).
    rewrite !cmp_le_lex_neg. lia.
  - change (PyFloat.cmp_le (Some (PyFloat.lex_pos ex mx ey my)) = true ->
            PyFloat.cmp_le (Some (PyFloat.lex_pos ey my ez mz)) = true ->
            PyFloat.cmp_le (Some (PyFloat.lex_pos ex mx ez mz)) = true).
    rewrite !cmp_le_lex_pos. lia.
Qed.

Lemma le_trans (x y z : float) :
  PyFloat.le x y = true -> PyFloat.le y z = true -> PyFloat.le x z = true.
Proof.
  unfold PyFloat.le. rewrite !leb_spec. apply SFcompare_le_trans.
Qed.

Lemma le_nan_r (x y : float) : PyFloat.isnan y = true -> PyFloat.le x y = false.
Proof.
  intros H. unfold PyFloat.le. rewrite leb_spec, (isnan_spec _ H). unfold SFleb.
  now destruct (Prim2SF x).
Qed.

Section MoreProperties.

Context `{B : Builtins} `{G : Shapely} `{R : Runtime} {C : Coords G}.

(** ** Verdicts *)

Lemma first_zone_cases (pt : geom) (prisons : list row) :
  match first_zone pt prisons with
  | inr (Some prison) =>
      prison ∈ prisons /\ exists z, zone prison = Some z /\ contains z pt = true
  | inr None =>
      forall r, r ∈ prisons -> exists z, zone r = Some z /\ contains z pt = false
  | inl e => e = KeyError
  end.
Proof.
  induction prisons as [|prison rest IH]; simpl.
  - intros r Hr. now apply elem_of_nil in Hr.
  - destruct (zone prison) as [z|] eqn:Hz; [|reflexivity].
    destruct (contains z pt) eqn:Hc.
    + split; [apply list_elem_of_here|eauto].
    + destruct (first_zone pt rest) as [e|[hit|]].
      * exact IH.
      * destruct IH as [Hin Hhit]. split; [now apply list_elem_of_further|exact Hhit].
      * intros r Hr. apply elem_of_cons in Hr as [->|Hr]; eauto.
Qed.

(** X1: whatever the instance, a verdict of [check_location] is
    coherent.  It has exactly the six keys, echoes the coordinates asked
    about, carries the one clock reading taken, and is either
    (true, HIGH, BLOCK, the info of a zone whose geometry contains the
    point) or (false, LOW, ALLOW, null, no zone containing the point).
    When the method raises instead, it is an [AttributeError] or a
    [KeyError] and no clock reading was taken. *)
Theorem verdict_is_coherent (s : env) (lat lon : float) :
  match check_location lat lon s with
  | (inr res, s') =>
      s' = {| self := self s; clock := S (clock s) |}
      /\ (exists fields, res = JObj fields
            /\ dom fields = list_to_set ["inside_prison"; "risk_level"; "action";
                                         "prison_info"; "coordinates"; "timestamp"])
      /\ field "coordinates" res = Some (coordinates lat lon)
      /\ field "timestamp" res = Some (JStr (isoformat (clock s)))
      /\ exists zones, prisons_zones (self s) = Some zones
         /\ ((field "inside_prison" res = Some (JBool true)
              /\ field "risk_level" res = Some (JStr "HIGH")
              /\ field "action" res = Some (JStr "BLOCK")
              /\ exists prison z, prison ∈ rows zones /\ zone prison = Some z
                   /\ contains z (Point lon lat) = true
                   /\ field "prison_info" res = Some (prison_info prison))
             \/ (field "inside_prison" res = Some (JBool false)
                 /\ field "risk_level" res = Some (JStr "LOW")
                 /\ field "action" res = Some (JStr "ALLOW")
                 /\ field "prison_info" res = Some JNull
                 /\ forall r, r ∈ rows zones ->
                      exists z, zone r = Some z /\ contains z (Point lon lat) = false))
  | (inl e, s') => s' = s /\ (e = AttributeError \/ e = KeyError)
  end.
Proof.
  unfold check_location, bind, getattr.
  destruct (prisons_zones (self s)) as [zones|] eqn:Hz; [|auto].
  pose proof (first_zone_cases (Point lon lat) (rows zones)) as Hcases.
  destruct (first_zone (Point lon lat) (rows zones)) as [e|[prison|]]; cbn [lift ret raise].
  - auto.
  - cbn [now]. split; [reflexivity|]. split.
    { eexists. split; [reflexivity|]. unfold dict. rewrite dom_list_to_map_L.
      reflexivity. }
    split; [reflexivity|]. split; [reflexivity|].
    exists zones. split; [reflexivity|]. left.
    destruct Hcases as (Hin & z & Hzone & Hc).
    repeat split; try reflexivity. exists prison, z. auto.
  - cbn [now]. split; [reflexivity|]. split.
    { eexists. split; [reflexivity|]. unfold dict. rewrite dom_list_to_map_L.
      reflexivity. }
    split; [reflexivity|]. split; [reflexivity|].
    exists zones. split; [reflexivity|]. right.
    repeat split; try reflexivity. exact Hcases.
Qed.

(** ** Loading *)

Lemma new_metric_rows (gdf : GeoDataFrame) (m : Z) :
  prisons_metric (new gdf m)
  = Some {| crs := 3857;
            rows := map (fun r => {| osm_id := osm_id r; tags := tags r;
                                     geometry := GeoSeries_to_crs (crs gdf) (geometry r) 3857;
                                     zone := Some (safety_geometry (crs gdf) m (geometry r)) |})
                        (rows gdf) |}.
Proof.
  rewrite new_metric_eq. unfold set_zone, geometry_buffer, to_crs. cbn [rows crs].
  now rewrite zip_with_map_map.
Qed.

(** X2: loading keeps the records.  The instance holds the frame as it
    was read and the margin; the metric frame (EPSG:3857) and the zone
    frame (EPSG:4326) have one row per feature, in the order of the file
    and with the same ids and attributes; both carry the same zone
    column, set in every row. *)
Theorem loading_keeps_the_records (gdf : GeoDataFrame) (m : Z) :
  exists metric zones,
    prisons_gdf (new gdf m) = Some gdf
    /\ buffer_meters (new gdf m) = Some m
    /\ prisons_metric (new gdf m) = Some metric
    /\ prisons_zones (new gdf m) = Some zones
    /\ crs metric = 3857 /\ crs zones = 4326
    /\ map osm_id (rows metric) = map osm_id (rows gdf)
    /\ map osm_id (rows zones) = map osm_id (rows gdf)
    /\ map tags (rows metric) = map tags (rows gdf)
    /\ map tags (rows zones) = map tags (rows gdf)
    /\ map zone (rows metric) = map zone (rows zones)
    /\ Forall (fun r => is_Some (zone r)) (rows zones).
Proof.
  eexists. eexists.
  split; [apply new_gdf|]. split; [apply new_buffer_meters|].
  split; [apply new_metric_rows|]. split; [apply new_zones|].
  cbn [crs rows]. rewrite !map_map. cbn [osm_id tags zone prepared].
  repeat split; try reflexivity.
  apply Forall_forall. intros r Hr.
  change (map (prepared (crs gdf) m) (rows gdf)) with (prepared (crs gdf) m <$> rows gdf) in Hr.
  apply list_elem_of_fmap in Hr as (r0 & -> & _). eauto.
Qed.

(** ** The check-location view *)

Lemma check_location_no_transaction_id (s s' : env) (lat lon : float) (res : json) :
  check_location lat lon s = (inr res, s') -> field "transaction_id" res = None.
Proof.
  unfold check_location, bind, getattr.
  destruct (prisons_zones (self s)) as [zones|]; [|discriminate].
  destruct (first_zone (Point lon lat) (rows zones)) as [e|[prison|]];
    cbn [lift ret raise now]; [discriminate| |]; intros [= <- _]; reflexivity.
Qed.

Lemma lat_lon_dict_keys (d : gmap string json) (p : float * float) :
  lat_lon (JObj d) = inr p -> is_Some (d !! "latitude") /\ is_Some (d !! "longitude").
Proof.
  unfold lat_lon. cbn [getitem].
  destruct (d !! "latitude") as [a|]; [|discriminate].
  destruct (to_float a); [discriminate|].
  destruct (d !! "longitude") as [b|]; [|discriminate]. eauto.
Qed.

(** The view on a JSON object, up to the call of the method. *)
Lemma route_check_location_dict (st : globals) (o : PrisonGeofencing)
    (d : gmap string json) :
  PRISONS_DATA st = Some o ->
  route_check_location (JObj d) st
  = match d !! "latitude", d !! "longitude" with
    | Some _, Some _ =>
        match lat_lon (JObj d) with
        | inl e => if exn_in e [ValueError; TypeError]
                   then (inr (error "Invalid coordinates" 400), st)
                   else (inl e, st)
        | inr (lat, lon) =>
            bind (call (check_location lat lon))
              (fun result =>
                 bind (lift (py_in "transaction_id" (JObj d)))
                   (fun has_id =>
                      bind (if has_id
                            then bind (lift (getitem (JObj d) "transaction_id"))
                                   (fun tid => lift (setitem result "transaction_id" tid))
                            else ret result)
                        (fun result => ret (result, 200)))) st
        end
    | _, _ => (inr (error "Missing latitude or longitude" 400), st)
    end.
Proof.
  intros Ho. unfold route_check_location. unfold bind at 1. unfold gets. rewrite Ho.
  unfold bind at 1.
  destruct (d !! "latitude") as [a|] eqn:Ha.
  - rewrite (absent_dict d _ _ _ _ Ha Ha). cbn [lift ret]. unfold bind at 1.
    destruct (d !! "longitude") as [b|] eqn:Hb.
    + unfold bind at 1. rewrite (py_in_dict d _ _ Hb). cbn [lift ret negb].
      unfold bind at 1. rewrite try_lat_lon_run.
      destruct (lat_lon (JObj d)) as [e|[lat lon]]; [|reflexivity].
      destruct (exn_in e [ValueError; TypeError]); reflexivity.
    + unfold bind at 1. cbn [py_in lift ret]. rewrite Hb.
      rewrite bool_decide_eq_false_2 by (intros [? ?]; discriminate). reflexivity.
  - unfold absent. destruct (truthy (JObj d)); cbn [negb lift ret]; [|reflexivity].
    cbn [py_in]. rewrite Ha.
    rewrite bool_decide_eq_false_2 by (intros [? ?]; discriminate). reflexivity.
Qed.

(** The view on a loaded application, for a body whose coordinates
    convert: the verdict of the method, with the [transaction_id] of
    the body added when there is one. *)
Lemma route_check_location_ok (gdf : GeoDataFrame) (m : Z) (t : nat)
    (d : gmap string json) (lat lon : float) :
  lat_lon (JObj d) = inr (lat, lon) ->
  exists fields,
    check_location lat lon (loaded gdf m t) = (inr (JObj fields), loaded gdf m (S t))
    /\ fields !! "transaction_id" = None
    /\ route_check_location (JObj d) (serving gdf m t)
       = (inr (JObj match d !! "transaction_id" with
                    | Some tid => <["transaction_id" := tid]> fields
                    | None => fields
                    end, 200), serving gdf m (S t)).
Proof.
  intros Hconv.
  destruct (check_location_loaded gdf m t lat lon) as (res & Hrun & (fields & ->) & _).
  exists fields. split; [exact Hrun|].
  split; [exact (check_location_no_transaction_id _ _ _ _ _ Hrun)|].
  destruct (lat_lon_dict_keys d _ Hconv) as [[a Ha] [b Hb]].
  rewrite (route_check_location_dict (serving gdf m t) (new gdf m) d eq_refl), Ha, Hb, Hconv.
  unfold bind at 1. rewrite (call_loaded _ _ _ _ _ _ Hrun).
  unfold bind at 1. cbn [py_in lift ret].
  destruct (d !! "transaction_id") as [tid|] eqn:Htid.
  - rewrite bool_decide_eq_true_2 by eauto. unfold bind. cbn [getitem]. rewrite Htid.
    reflexivity.
  - rewrite bool_decide_eq_false_2 by (intros [? ?]; discriminate). reflexivity.
Qed.

(** The batch view on a JSON object with a [locations] entry, up to the
    conversion loop. *)
Lemma route_batch_check_dict (st : globals) (o : PrisonGeofencing)
    (d : gmap string json) (v : json) :
  PRISONS_DATA st = Some o ->
  d !! "locations" = Some v ->
  route_batch_check (JObj d) st
  = match py_iter v with
    | inl e => (inl e, st)
    | inr locs =>
        bind (parse_locations locs [])
          (fun parsed =>
             match parsed with
             | None => ret (error "Invalid location format" 400)
             | Some locations =>
                 bind (call (batch_check locations))
                   (fun results =>
                      ret (dict [("total", JInt (Z.of_nat (length results)));
                                 ("results", JArr results)], 200))
             end) st
    end.
Proof.
  intros Ho Hd. unfold route_batch_check. unfold bind at 1. unfold gets. rewrite Ho.
  unfold bind at 1. rewrite (absent_dict d _ _ _ _ Hd Hd). cbn [lift ret].
  unfold bind at 1. cbn [getitem]. rewrite Hd. cbn [lift ret].
  unfold bind at 1. destruct (py_iter v); reflexivity.
Qed.

Lemma lookup_locations (v : json) :
  (list_to_map [("locations", v)] : gmap string json) !! "locations" = Some v.
Proof. cbn [list_to_map foldr]. apply lookup_insert_eq. Qed.

(** X3: what the check-location view refuses.  On a loaded application a
    JSON object without a latitude or without a longitude is answered
    400 [Missing latitude or longitude]; an object with both, one of
    which [float()] rejects with a [ValueError] or a [TypeError] (a text
    that is no number, null, a list, an object), is answered 400
    [Invalid coordinates].  In both cases no verdict is computed: the
    application state, clock included, is as before. *)
Theorem check_view_refusals (st : globals) (o : PrisonGeofencing) (d : gmap string json) :
  PRISONS_DATA st = Some o ->
  (d !! "latitude" = None \/ d !! "longitude" = None ->
   route_check_location (JObj d) st
   = (inr (error "Missing latitude or longitude" 400), st))
  /\ (forall e, is_Some (d !! "latitude") -> is_Some (d !! "longitude") ->
        lat_lon (JObj d) = inl e -> e = ValueError \/ e = TypeError ->
        route_check_location (JObj d) st = (inr (error "Invalid coordinates" 400), st)).
Proof.
  intros Ho. rewrite (route_check_location_dict st o d Ho). split.
  - intros [H|H]; rewrite H; [reflexivity|]. now destruct (d !! "latitude").
  - intros e [a ->] [b ->] -> [->| ->]; reflexivity.
Qed.

(** X4: the check-location view hands the [transaction_id] back.  On a
    loaded application, for a body whose coordinates convert, the answer
    is 200 and its [transaction_id] is exactly the one in the body,
    whatever JSON value it is, and there is none when the body has
    none; every other key of the answer is the verdict of the method for
    these coordinates. *)
Theorem transaction_id_is_echoed (gdf : GeoDataFrame) (m : Z) (t : nat)
    (d : gmap string json) (lat lon : float) :
  lat_lon (JObj d) = inr (lat, lon) ->
  exists body res,
    fst (route_check_location (JObj d) (serving gdf m t)) = inr (body, 200)
    /\ fst (check_location lat lon (loaded gdf m t)) = inr res
    /\ field "transaction_id" body = d !! "transaction_id"
    /\ forall k, k <> "transaction_id" -> field k body = field k res.
Proof.
  intros Hconv.
  destruct (route_check_location_ok gdf m t d lat lon Hconv) as (fields & Hrun & Hno & Hroute).
  eexists. exists (JObj fields). rewrite Hroute, Hrun.
  split; [reflexivity|]. split; [reflexivity|]. cbn [field].
  destruct (d !! "transaction_id") as [tid|].
  - split; [apply lookup_insert_eq|]. intros k Hk. now rewrite lookup_insert_ne.
  - split; [exact Hno|reflexivity].
Qed.

(** X5: an integer too large for a double is not refused with a 400: the
    [OverflowError] of [float()] is none of the exceptions the view
    catches, so it leaves the view (Flask answers 500), and the same
    escapes the batch view from any element of the batch. *)
Theorem float_overflow_escapes (st : globals) (o : PrisonGeofencing)
    (d : gmap string json) (z : Z) (b : json) :
  PRISONS_DATA st = Some o ->
  PyFloat.of_int z = None ->
  d !! "latitude" = Some (JInt z) ->
  d !! "longitude" = Some b ->
  route_check_location (JObj d) st = (inl OverflowError, st)
  /\ forall others,
       route_batch_check (dict [("locations", JArr (JObj d :: others))]) st
       = (inl OverflowError, st).
Proof.
  intros Ho Hz Ha Hb.
  assert (Hconv : lat_lon (JObj d) = inl OverflowError).
  { unfold lat_lon. cbn [getitem]. rewrite Ha. cbn [to_float]. now rewrite Hz. }
  split.
  - now rewrite (route_check_location_dict st o d Ho), Ha, Hb, Hconv.
  - intros others.
    unfold dict.
    rewrite (route_batch_check_dict st o
               (list_to_map [("locations", JArr (JObj d :: others))])
               (JArr (JObj d :: others)) Ho (lookup_locations _)).
    cbn [py_iter parse_locations]. unfold bind.
    now rewrite try_lat_lon_run, Hconv.
Qed.

(** ** Batches, again *)

(** X6: the results of a batch carry their inputs.  On a loaded zone set
    [batch_check] returns, takes one clock reading per location, and its
    [i]-th result echoes the coordinates of the [i]-th location and is
    stamped with the [i]-th of these readings. *)
Theorem batch_results_carry_their_inputs (gdf : GeoDataFrame) (m : Z) (t : nat)
    (locations : list (float * float)) :
  exists results,
    batch_check locations (loaded gdf m t)
    = (inr results, loaded gdf m (t + length locations))
    /\ forall i lat lon, locations !! i = Some (lat, lon) ->
         exists r, results !! i = Some r
           /\ field "coordinates" r = Some (coordinates lat lon)
           /\ field "timestamp" r = Some (JStr (isoformat (t + i))).
Proof.
  destruct (batch_loop_loaded gdf m locations [] t) as (results & Hrun & _ & Hnth).
  exists results. split; [exact Hrun|].
  intros i lat lon Hi. destruct (Hnth i lat lon Hi) as (r & Hr & Hcheck).
  exists r. split; [exact Hr|].
  destruct (check_location_loaded gdf m (t + i) lat lon) as (r' & Hrun' & _ & Hc & Ht & _).
  rewrite Hrun' in Hcheck. injection Hcheck as <-. auto.
Qed.

(** X7: the two endpoints agree.  When every element of a batch
    converts, the [i]-th result of the batch view is the very body the
    check-location view answers for the [i]-th element alone (sent
    without a [transaction_id], at the clock reading the batch had
    reached). *)
Theorem batch_agrees_with_single (gdf : GeoDataFrame) (m : Z) (t : nat)
    (d : gmap string json) (locs : list json) (locations : list (float * float)) :
  d !! "locations" = Some (JArr locs) ->
  Forall2 (fun loc p => lat_lon loc = inr p) locs locations ->
  exists results,
    fst (route_batch_check (JObj d) (serving gdf m t))
    = inr (dict [("total", JInt (Z.of_nat (length locs))); ("results", JArr results)], 200)
    /\ forall i e, locs !! i = Some (JObj e) -> e !! "transaction_id" = None ->
         exists r, results !! i = Some r
           /\ fst (route_check_location (JObj e) (serving gdf m (t + i))) = inr (r, 200).
Proof.
  intros Hd Hall.
  destruct (batch_loop_loaded gdf m locations [] t) as (results & Hrun & Hlen & Hnth).
  exists results. split.
  - rewrite (route_batch_check_dict (serving gdf m t) (new gdf m) d _ eq_refl Hd).
    cbn [py_iter]. unfold bind at 1. rewrite (parse_locations_all _ _ _ _ Hall).
    rewrite app_nil_l. unfold bind, batch_check.
    rewrite (call_loaded _ _ _ _ _ _ Hrun). cbn [ret fst]. rewrite app_nil_l.
    rewrite Hlen, <- (Forall2_length _ _ _ Hall). reflexivity.
  - intros i e Hi Hno.
    destruct (Forall2_lookup_l _ _ _ _ _ Hall Hi) as ([lat lon] & Hloc & Hconv).
    destruct (Hnth i lat lon Hloc) as (r & Hr & Hcheck).
    exists r. split; [exact Hr|].
    destruct (route_check_location_ok gdf m (t + i) e lat lon Hconv)
      as (fields & Hrun' & _ & Hroute).
    rewrite Hroute, Hno. rewrite Hrun' in Hcheck. injection Hcheck as <-. reflexivity.
Qed.

(** X8: edges of the batch view on a loaded application.  A body
    without [locations] is answered 400 [Missing locations array]; when
    [locations] is not iterable (null, a boolean, a number) the
    [TypeError] of the loop leaves the view; an empty list is answered
    200 with total 0 and no result.  None of these computes a verdict or
    changes the state. *)
Theorem batch_view_edges (st : globals) (o : PrisonGeofencing) (d : gmap string json) :
  PRISONS_DATA st = Some o ->
  (d !! "locations" = None ->
   route_batch_check (JObj d) st = (inr (error "Missing locations array" 400), st))
  /\ (forall v e, d !! "locations" = Some v -> py_iter v = inl e ->
        e = TypeError /\ route_batch_check (JObj d) st = (inl TypeError, st))
  /\ (d !! "locations" = Some (JArr []) ->
      route_batch_check (JObj d) st
      = (inr (dict [("total", JInt 0); ("results", JArr [])], 200), st)).
Proof.
  intros Ho. split; [|split].
  - intros Hd. unfold route_batch_check, bind, gets. rewrite Ho.
    unfold absent. destruct (truthy (JObj d)); cbn [negb lift ret]; [|reflexivity].
    cbn [py_in]. rewrite Hd.
    rewrite bool_decide_eq_false_2 by (intros [? ?]; discriminate). reflexivity.
  - intros v e Hd He. rewrite (route_batch_check_dict st o d v Ho Hd), He.
    destruct v; simpl in He; try discriminate; injection He as <-; auto.
  - intros Hd. rewrite (route_batch_check_dict st o d _ Ho Hd).
    cbn [py_iter parse_locations]. unfold bind, call, batch_check. cbn [ret batch_loop].
    rewrite Ho. cbn [self clock length]. destruct st as [pd tk]. simpl in Ho. subst pd.
    reflexivity.
Qed.

(** ** Before and after loading *)

(** X9: before [initialize_api] has run the three POST views answer 500
    [Prison data not loaded] for every body, without raising, reading
    the clock or changing the state. *)
Theorem unloaded_views_answer_500 (st : globals) (data : json) :
  PRISONS_DATA st = None ->
  route_check_location data st = (inr (error "Prison data not loaded" 500), st)
  /\ route_batch_check data st = (inr (error "Prison data not loaded" 500), st)
  /\ route_nearest_prison data st = (inr (error "Prison data not loaded" 500), st).
Proof.
  intros Hno. unfold route_check_location, route_batch_check, route_nearest_prison.
  unfold bind, gets. rewrite Hno. auto.
Qed.

(** ** The nearest prison, again *)

(** One value that cannot be serialised spoils the dict that holds it. *)
Lemma serializable_entry (fields : gmap string json) (k : string) (v : json) :
  fields !! k = Some v -> serializable v = false -> serializable (JObj fields) = false.
Proof.
  cbn [serializable]. revert k v.
  apply (map_fold_weak_ind
           (fun r (fs : gmap string json) =>
              forall k v, fs !! k = Some v -> serializable v = false -> r = false)).
  - intros k v Hk. now rewrite lookup_empty in Hk.
  - intros i x fs r _ IH k v Hk Hv. destruct (decide (k = i)) as [->|Hne].
    + rewrite lookup_insert_eq in Hk. injection Hk as ->. now rewrite Hv.
    + rewrite lookup_insert_ne in Hk by done. rewrite (IH k v Hk Hv). apply andb_false_r.
Qed.

(** On a loaded zone set [get_nearest_prison] returns without touching
    the state; whether it answers depends on the radius, what it answers
    does not, nor does it depend on the margin or the clock; and what it
    answers holds a numpy integer, which [jsonify] refuses. *)
Lemma get_nearest_prison_loaded (gdf : GeoDataFrame) (lat lon : float) :
  let km := (Series_min (raw_distances gdf lat lon) / 1000)%float in
  exists answer : option json,
    (forall found, answer = Some found ->
       truthy found = true /\ jsonify found = inl TypeError)
    /\ forall m t max_distance_km,
         get_nearest_prison lat lon max_distance_km (loaded gdf m t)
         = (inr (if PyFloat.le km max_distance_km then answer else None), loaded gdf m t).
Proof.
  intros km. set (ds := raw_distances gdf lat lon) in *.
  assert (Hds : forall m metric, prisons_metric (new gdf m) = Some metric ->
            geometry_distance metric (GeoSeries_to_crs 4326 (Point lon lat) 3857) = ds).
  { intros m metric Hm. rewrite new_metric_rows in Hm. injection Hm as <-.
    unfold geometry_distance, ds, raw_distances. cbn [rows]. now rewrite map_map. }
  destruct (forallb PyFloat.isnan ds) eqn:Hnan.
  - exists None. split; [discriminate|]. intros m t maxd.
    unfold get_nearest_prison, bind, getattr, loaded. cbn [self].
    rewrite new_metric_rows, (Hds m _ (new_metric_rows gdf m)). fold km.
    assert (Hle : PyFloat.le km maxd = false).
    { unfold km. rewrite (Series_min_all_nan _ Hnan). now apply le_nan_l. }
    now rewrite Hle.
  - destruct (Series_min_idxmin ds Hnan) as (i & di & Hidx & Hdi & _).
    assert (Hrow : exists nearest, rows gdf !! i = Some nearest).
    { apply lookup_lt_is_Some. apply lookup_lt_Some in Hdi.
      unfold ds, raw_distances in Hdi. now rewrite length_map in Hdi. }
    destruct Hrow as (nearest & Hrow).
    exists (Some (dict [("distance_km", JFloat (round km 3));
                        ("distance_meters", JFloat (round (Series_min ds) 1));
                        ("prison_info", nearest_info nearest)])).
    split.
    + intros found [= <-]. split.
      * apply (truthy_dict _ "distance_km" (JFloat (round km 3))). reflexivity.
      * unfold jsonify, dict.
        rewrite (serializable_entry _ "prison_info" (nearest_info nearest)); [reflexivity..|].
        now apply (serializable_entry _ "osm_id" (JNumpyInt (osm_id nearest))).
    + intros m t maxd.
      unfold get_nearest_prison, bind, getattr, loaded. cbn [self].
      rewrite new_metric_rows, (Hds m _ (new_metric_rows gdf m)). fold km.
      destruct (PyFloat.le km maxd); [|reflexivity].
      rewrite Hidx. cbn [lift ret self]. rewrite new_gdf.
      unfold iloc. rewrite Hrow. reflexivity.
Qed.

(** X10: widening the radius never loses the nearest prison.  If
    [get_nearest_prison] finds a prison within [r1] and [r1 <= r2], it
    answers the same prison at the same distance within [r2], and does
    so whatever the margin the zones were loaded with and whenever it is
    asked. *)
Theorem wider_radius_keeps_the_answer (gdf : GeoDataFrame) (m m' : Z) (t t' : nat)
    (lat lon r1 r2 : float) (found : json) :
  PyFloat.le r1 r2 = true ->
  fst (get_nearest_prison lat lon r1 (loaded gdf m t)) = inr (Some found) ->
  fst (get_nearest_prison lat lon r2 (loaded gdf m' t')) = inr (Some found).
Proof.
  intros Hr Hfound.
  destruct (get_nearest_prison_loaded gdf lat lon) as (answer & _ & Hrun).
  rewrite Hrun in *. cbn [fst] in *.
  destruct (PyFloat.le _ r1) eqn:H1; [|discriminate].
  now rewrite (le_trans _ _ _ H1 Hr).
Qed.

(** X11: with no zone loaded every query still answers: any point is
    outside (false, LOW, ALLOW) and no prison is near, whatever the
    radius, an infinite one included. *)
Theorem empty_zone_set_answers (gdf : GeoDataFrame) (m : Z) (t : nat)
    (lat lon max_distance_km : float) :
  rows gdf = [] ->
  fst (get_nearest_prison lat lon max_distance_km (loaded gdf m t)) = inr None
  /\ exists res,
       fst (check_location lat lon (loaded gdf m t)) = inr res
       /\ field "inside_prison" res = Some (JBool false)
       /\ field "risk_level" res = Some (JStr "LOW")
       /\ field "action" res = Some (JStr "ALLOW").
Proof.
  intros Hrows. split.
  - destruct (get_nearest_prison_loaded gdf lat lon) as (answer & _ & Hrun).
    rewrite Hrun. unfold raw_distances. rewrite Hrows. cbn [map fst].
    rewrite le_nan_l; reflexivity.
  - destruct (check_location_loaded gdf m t lat lon) as (res & Hrun & _ & _ & _ & Hres).
    rewrite Hrows in Hres. cbn [find] in Hres. destruct Hres as (? & ? & ? & _).
    exists res. now rewrite Hrun.
Qed.

(** The nearest view on a JSON object, up to the call of the method. *)
Lemma route_nearest_prison_dict (st : globals) (o : PrisonGeofencing)
    (d : gmap string json) :
  PRISONS_DATA st = Some o ->
  route_nearest_prison (JObj d) st
  = match d !! "latitude", d !! "longitude" with
    | Some _, Some _ =>
        match nearest_params (JObj d) with
        | inl e => if exn_in e [ValueError; TypeError]
                   then (inr (error "Invalid parameters" 400), st)
                   else (inl e, st)
        | inr (lat, lon, max_dist) =>
            bind (call (get_nearest_prison lat lon max_dist))
              (fun result =>
                 match result with
                 | Some found => if truthy found
                                 then bind (lift (jsonify found))
                                        (fun body => ret (body, 200))
                                 else ret (not_found max_dist, 200)
                 | None => ret (not_found max_dist, 200)
                 end) st
        end
    | _, _ => (inr (error "Missing latitude or longitude" 400), st)
    end.
Proof.
  intros Ho. unfold route_nearest_prison. unfold bind at 1. unfold gets. rewrite Ho.
  unfold bind at 1.
  destruct (d !! "latitude") as [a|] eqn:Ha.
  - rewrite (absent_dict d _ _ _ _ Ha Ha). cbn [lift ret]. unfold bind at 1.
    destruct (d !! "longitude") as [b|] eqn:Hb.
    + unfold bind at 1. rewrite (py_in_dict d _ _ Hb). cbn [lift ret negb].
      unfold bind at 1. unfold try_except, bind at 1.
      destruct (nearest_params (JObj d)) as [e|[[lat lon] max_dist]]; cbn [lift ret raise].
      * destruct (exn_in e [ValueError; TypeError]); reflexivity.
      * reflexivity.
    + unfold bind at 1. cbn [py_in lift ret]. rewrite Hb.
      rewrite bool_decide_eq_false_2 by (intros [? ?]; discriminate). reflexivity.
  - unfold absent. destruct (truthy (JObj d)); cbn [negb lift ret]; [|reflexivity].
    cbn [py_in]. rewrite Ha.
    rewrite bool_decide_eq_false_2 by (intros [? ?]; discriminate). reflexivity.
Qed.

(** X12: the nearest view on a loaded application.  For a body whose
    coordinates convert, with a radius that converts or with none (then
    the radius is 5.0): when [get_nearest_prison] finds no prison within
    the radius, the answer is 200 with null [distance_km] and
    [prison_info] and the message naming the radius, never a 404; when
    it finds one, its answer carries the [osm_id] as the numpy integer
    read from the frame, [jsonify] cannot serialise it, and the
    [TypeError] leaves the view (Flask answers 500).  Either way the
    state is as before, no clock reading included. *)
Theorem nearest_view_answers (gdf : GeoDataFrame) (m : Z) (t : nat)
    (d : gmap string json) (lat lon max_dist : float) :
  lat_lon (JObj d) = inr (lat, lon) ->
  match d !! "max_distance_km" with
  | Some v => to_float v
  | None => inr 5%float
  end = inr max_dist ->
  route_nearest_prison (JObj d) (serving gdf m t)
  = (match fst (get_nearest_prison lat lon max_dist (loaded gdf m t)) with
     | inr (Some found) => inl TypeError
     | _ => inr (not_found max_dist, 200)
     end, serving gdf m t).
Proof.
  intros Hconv Hrad.
  destruct (lat_lon_dict_keys d _ Hconv) as [[a Ha] [b Hb]].
  assert (Hparams : nearest_params (JObj d) = inr (lat, lon, max_dist)).
  { unfold nearest_params. rewrite Hconv. cbn [py_get].
    destruct (d !! "max_distance_km") as [v|].
    - now rewrite Hrad.
    - cbn [to_float]. now injection Hrad as <-. }
  rewrite (route_nearest_prison_dict (serving gdf m t) (new gdf m) d eq_refl).
  rewrite Ha, Hb, Hparams.
  destruct (get_nearest_prison_loaded gdf lat lon) as (answer & Hfound & Hrun).
  unfold bind at 1. rewrite (call_loaded _ _ _ _ _ _ (Hrun m t max_dist)), Hrun. cbn [fst].
  destruct (PyFloat.le _ max_dist); [|reflexivity].
  destruct answer as [found|]; [|reflexivity].
  destruct (Hfound found eq_refl) as [-> Hjson].
  unfold bind. now rewrite Hjson.
Qed.

(** ** Health *)

(** X13: the health view never fails on a constructed instance and
    counts what was loaded.  Once [initialize_api] has run on a frame it
    answers 200 with [prisons_loaded] the number of features of that
    frame, whatever was loaded before; before any load it answers 200
    with 0.  It takes one clock reading and leaves [PRISONS_DATA] as it
    is. *)
Theorem health_counts_the_loaded_prisons (st : globals) (gdf : GeoDataFrame) (m : Z) :
  let st' := snd (initialize_api gdf m st) in
  route_health_check st'
  = (inr (dict [("status", JStr "healthy");
                ("prisons_loaded", JInt (Z.of_nat (length (rows gdf))));
                ("timestamp", JStr (utcnow_isoformat (ticks st)))], 200),
     {| PRISONS_DATA := Some (new gdf m); ticks := S (ticks st) |})
  /\ (PRISONS_DATA st = None ->
      route_health_check st
      = (inr (dict [("status", JStr "healthy");
                    ("prisons_loaded", JInt 0);
                    ("timestamp", JStr (utcnow_isoformat (ticks st)))], 200),
         {| PRISONS_DATA := None; ticks := S (ticks st) |})).
Proof.
  split.
  - unfold route_health_check, bind, gets, initialize_api, modify.
    cbn [snd PRISONS_DATA ticks]. rewrite new_gdf. reflexivity.
  - intros Hno. unfold route_health_check, bind, gets. rewrite Hno. cbn [ret utcnow].
    now rewrite Hno.
Qed.

(** ** The JSON export *)

Lemma export_loop_all (prisons : list row) (entries acc : list json) :
  Forall2 (fun prison entry => export_entry prison = inr entry) prisons entries ->
  export_loop acc prisons = inr (acc ++ entries).
Proof.
  intros H. revert acc. induction H as [|prison entry prisons entries He _ IH]; intros acc.
  - simpl. now rewrite app_nil_r.
  - simpl. rewrite He, IH. now rewrite <- app_assoc.
Qed.

Lemma export_loop_first_failure (pre post : list row) (prison : row)
    (entries acc : list json) (e : exn) :
  Forall2 (fun prison entry => export_entry prison = inr entry) pre entries ->
  export_entry prison = inl e ->
  export_loop acc (pre ++ prison :: post) = inl e.
Proof.
  intros H He. revert acc. induction H as [|x entry pre entries Hx _ IH]; intros acc.
  - simpl. now rewrite He.
  - simpl. rewrite Hx. apply IH.
Qed.

(** X14: [export_json_list] on a loaded instance.  When every prison
    exports (its geometry has [.x] and [.y], that is, is a point, and its
    [osm_type] is known) the document has one entry per prison, in the
    order of the file, [total] is their number and [buffer_meters] the
    margin; one clock reading is taken.  When some prison is not a
    point, the export raises [AttributeError] at the first such prison:
    no document is produced and the state is untouched. *)
Theorem export_json_list_outcomes (gdf : GeoDataFrame) (m : Z) (t : nat) :
  (forall entries,
     Forall2 (fun prison entry => export_entry prison = inr entry) (rows gdf) entries ->
     export_json_list (loaded gdf m t)
     = (inr (dict [("total", JInt (Z.of_nat (length (rows gdf))));
                   ("buffer_meters", JInt m);
                   ("generated_at", JStr (utcnow_isoformat t));
                   ("prisons", JArr entries)]),
        loaded gdf m (S t)))
  /\ (forall pre prison post entries,
        rows gdf = pre ++ prison :: post ->
        Forall2 (fun prison entry => export_entry prison = inr entry) pre entries ->
        geom_y (geometry prison) = None \/ geom_x (geometry prison) = None ->
        export_json_list (loaded gdf m t) = (inl AttributeError, loaded gdf m t)).
Proof.
  split.
  - intros entries Hall.
    unfold export_json_list, bind, getattr, loaded. cbn [self]. rewrite new_gdf.
    rewrite (export_loop_all _ _ [] Hall). cbn [lift ret app self].
    rewrite new_buffer_meters. cbn [utcnow_meth clock self].
    now rewrite (Forall2_length _ _ _ Hall).
  - intros pre prison post entries Hrows Hpre Hxy.
    assert (He : export_entry prison = inl AttributeError).
    { unfold export_entry. destruct Hxy as [-> | Hx]; [reflexivity|].
      destruct (geom_y (geometry prison)); [|reflexivity]. now rewrite Hx. }
    unfold export_json_list, bind, getattr, loaded. cbn [self]. rewrite new_gdf, Hrows.
    now rewrite (export_loop_first_failure _ _ _ _ [] _ Hpre He).
Qed.

(** ** The client *)

(** X15: the client blocks only on the server's word.  Whatever
    [session.post] does, [validate_transaction_location] answers with
    the fail-open result (do not block, error) unless the response has
    status 200 and a JSON body; then it either fails open as well or
    hands on the [inside_prison] and [risk_level] of that body, with no
    error. *)
Theorem client_blocks_only_on_the_servers_word (post : json -> reply)
    (latitude longitude : float) (transaction_id : string) :
  let request := dict [("latitude", JFloat latitude);
                       ("longitude", JFloat longitude);
                       ("transaction_id", JStr transaction_id)] in
  let result := validate_transaction_location post latitude longitude transaction_id in
  match post request with
  | Reply 200 (inr data) =>
      (exists reason, result = fail_open reason)
      \/ (exists inside risk_level,
            field "inside_prison" data = Some inside
            /\ field "risk_level" data = Some risk_level
            /\ field "should_block" result = Some inside
            /\ field "risk_level" result = Some risk_level
            /\ field "error" result = Some (JBool false))
  | _ => exists reason, result = fail_open reason
  end.
Proof.
  intros request result. unfold result, validate_transaction_location. fold request.
  destruct (post request) as [status body| |text]; [|eauto|eauto].
  destruct (Z.eqb_spec status 200) as [->|Hne]; cbn [negb].
  - destruct body as [text|data]; [eauto|].
    unfold decision, subscript.
    destruct (getitem data "inside_prison") as [e|inside] eqn:Hi; [eauto|].
    destruct (py_get data "prison_info" JNull) as [e|info]; [eauto|].
    destruct (if truthy info
              then match getitem info "name" with
                   | inl e => inl (str_error e info "name")
                   | inr v => inr v
                   end
              else inr JNull) as [text|name]; [eauto|].
    destruct (getitem data "risk_level") as [e|risk] eqn:Hr; [eauto|].
    right. exists inside, risk.
    destruct data as [| | | | | | |fields]; try discriminate.
    cbn [getitem field] in *.
    destruct (fields !! "inside_prison"); [|discriminate].
    destruct (fields !! "risk_level"); [|discriminate].
    injection Hi as ->. injection Hr as ->. repeat split; reflexivity.
  - assert (Hfail : exists reason,
              (if true then fail_open "geofencing_service_error"
               else match body with
                    | inl text => fail_open ("geofencing_error: " +:+ text)
                    | inr data =>
                        match decision data with
                        | inl text => fail_open ("geofencing_error: " +:+ text)
                        | inr result => result
                        end
                    end) = fail_open reason) by eauto.
    destruct status as [|p|p]; try exact Hfail.
    repeat (destruct p as [p|p|]; try exact Hfail). congruence.
Qed.

(** X16: any failure of the server lets the transaction through.  When
    the request reaches a view that does not answer 200 (it answers an
    error status, or raises and Flask answers 500), the client's
    result is the fail-open one, [geofencing_service_error]: do not
    block.  This is what a server without loaded data gets. *)
Theorem client_fails_open_on_server_error (view : json -> M globals (json * Z))
    (html : string) (st : globals) (post : json -> reply)
    (latitude longitude : float) (transaction_id : string) :
  let request := dict [("latitude", JFloat latitude);
                       ("longitude", JFloat longitude);
                       ("transaction_id", JStr transaction_id)] in
  post request = fst (serve view html st request) ->
  (forall body, fst (view request st) <> inr (body, 200)) ->
  validate_transaction_location post latitude longitude transaction_id
  = fail_open "geofencing_service_error".
Proof.
  intros request Hpost Hnot. unfold validate_transaction_location. fold request.
  rewrite Hpost. unfold serve.
  destruct (view request st) as [[e|[body status]] st']; cbn [fst]; [reflexivity|].
  destruct (Z.eqb_spec status 200) as [->|Hne]; [|reflexivity].
  now destruct (Hnot body).
Qed.

Lemma decision_of_body (fields : gmap string json) (inside info risk_level : json) :
  fields !! "inside_prison" = Some inside ->
  fields !! "prison_info" = Some info ->
  fields !! "risk_level" = Some risk_level ->
  decision (JObj fields)
  = match (if truthy info then subscript info "name" else inr JNull) with
    | inl text => inl text
    | inr prison_name =>
        inr (dict [("should_block", inside);
                   ("reason", JStr (if truthy inside then "inside_prison" else "location_ok"));
                   ("prison_name", prison_name);
                   ("risk_level", risk_level);
                   ("error", JBool false)])
    end.
Proof.
  intros Hi Hp Hr. unfold decision, subscript at 1 3. cbn [getitem py_get].
  rewrite Hi, Hp, Hr. reflexivity.
Qed.

(** X17: client and server together.  When the request reaches the
    check-location view of a loaded application and its answer comes
    back, the client reports no error and blocks exactly when some zone
    contains the point: then with reason [inside_prison], risk HIGH and
    the name of the first such zone in the file; otherwise with reason
    [location_ok], risk LOW and no name. *)
Theorem client_end_to_end (gdf : GeoDataFrame) (m : Z) (t : nat) (post : json -> reply)
    (html : string) (latitude longitude : float) (transaction_id : string) :
  let request := dict [("latitude", JFloat latitude);
                       ("longitude", JFloat longitude);
                       ("transaction_id", JStr transaction_id)] in
  let result := validate_transaction_location post latitude longitude transaction_id in
  post request = fst (serve route_check_location html (serving gdf m t) request) ->
  field "error" result = Some (JBool false)
  /\ match find (fun r => contains (safety_geometry (crs gdf) m (geometry r))
                                   (Point longitude latitude)) (rows gdf) with
     | Some prison =>
         field "should_block" result = Some (JBool true)
         /\ field "reason" result = Some (JStr "inside_prison")
         /\ field "prison_name" result = Some (get prison "name" "Prisão não identificada")
         /\ field "risk_level" result = Some (JStr "HIGH")
     | None =>
         field "should_block" result = Some (JBool false)
         /\ field "reason" result = Some (JStr "location_ok")
         /\ field "prison_name" result = Some JNull
         /\ field "risk_level" result = Some (JStr "LOW")
     end.
Proof.
  intros request result Hpost. unfold result, validate_transaction_location.
  fold request. rewrite Hpost. clear Hpost result.
  set (d := list_to_map [("latitude", JFloat latitude);
                         ("longitude", JFloat longitude);
                         ("transaction_id", JStr transaction_id)] : gmap string json).
  change request with (JObj d).
  assert (Hconv : lat_lon (JObj d) = inr (latitude, longitude)) by reflexivity.
  destruct (route_check_location_ok gdf m t d latitude longitude Hconv)
    as (fields & Hrun & _ & Hroute).
  unfold serve. rewrite Hroute. cbn [fst negb Z.eqb Pos.eqb].
  change (d !! "transaction_id") with (Some (JStr transaction_id)).
  destruct (check_location_loaded gdf m t latitude longitude)
    as (res & Hrun' & _ & _ & _ & Hres).
  rewrite Hrun in Hrun'. injection Hrun' as <-. cbn [field] in Hres.
  destruct (find _ (rows gdf)) as [prison|].
  - destruct Hres as (Hin & Hrisk & _ & Hinfo).
    rewrite (decision_of_body _ (JBool true) (prison_info prison) (JStr "HIGH"))
      by (rewrite lookup_insert_ne by done; assumption).
    assert (Ht : truthy (prison_info prison) = true)
      by (apply (truthy_dict _ "osm_id" (JInt (osm_id prison))); reflexivity).
    rewrite Ht. repeat split; reflexivity.
  - destruct Hres as (Hin & Hrisk & _ & Hinfo).
    rewrite (decision_of_body _ (JBool false) JNull (JStr "LOW"))
      by (rewrite lookup_insert_ne by done; assumption).
    repeat split; reflexivity.
Qed.

End MoreProperties.

(** ** The executable instance at work, again *)

Lemma check_view_refusals_witness :
  route_check_location (dict [("longitude", JFloat (-43.2105))]) (serving Ref.sample 50 0)
  = (inr (error "Missing latitude or longitude" 400), serving Ref.sample 50 0)
  /\ route_check_location (dict [("latitude", JStr "north"); ("longitude", JNull)])
       (serving Ref.sample 50 0)
     = (inr (error "Invalid coordinates" 400), serving Ref.sample 50 0).
Proof.
  split.
  - apply (proj1 (check_view_refusals (serving Ref.sample 50 0) (new Ref.sample 50)
                    (list_to_map [("longitude", JFloat (-43.2105))]) eq_refl)).
    left. reflexivity.
  - apply (proj2 (check_view_refusals (serving Ref.sample 50 0) (new Ref.sample 50)
                    (list_to_map [("latitude", JStr "north"); ("longitude", JNull)])
                    eq_refl) ValueError).
    + eexists. reflexivity.
    + eexists. reflexivity.
    + vm_compute. reflexivity.
    + left. reflexivity.
Defined.

Lemma transaction_id_is_echoed_witness :
  exists body res,
    fst (route_check_location
           (dict [("latitude", JFloat (-22.9519)); ("longitude", JFloat (-43.2105));
                  ("transaction_id", JInt 77)])
           (serving Ref.sample 50 0)) = inr (body, 200)
    /\ fst (check_location (-22.9519) (-43.2105) (loaded Ref.sample 50 0)) = inr res
    /\ field "transaction_id" body = Some (JInt 77)
    /\ forall k, k <> "transaction_id" -> field k body = field k res.
Proof.
  exact (transaction_id_is_echoed Ref.sample 50 0
           (list_to_map [("latitude", JFloat (-22.9519)); ("longitude", JFloat (-43.2105));
                         ("transaction_id", JInt 77)])
           (-22.9519) (-43.2105) eq_refl).
Defined.

Lemma float_overflow_escapes_witness :
  route_check_location (dict [("latitude", JInt (2 ^ 1024)); ("longitude", JInt 0)])
    (serving Ref.sample 50 0)
  = (inl OverflowError, serving Ref.sample 50 0).
Proof.
  apply (proj1 (float_overflow_escapes (serving Ref.sample 50 0) (new Ref.sample 50)
                  (list_to_map [("latitude", JInt (2 ^ 1024)); ("longitude", JInt 0)])
                  (2 ^ 1024) (JInt 0) eq_refl ltac:(vm_compute; reflexivity)
                  ltac:(reflexivity) ltac:(reflexivity))).
Defined.

Lemma batch_agrees_with_single_witness :
  let one := list_to_map [("latitude", JFloat (-22.9519)); ("longitude", JFloat (-43.2105))] in
  let two := list_to_map [("latitude", JInt 200); ("longitude", JStr "-46.6333")] in
  exists results,
    fst (route_batch_check (dict [("locations", JArr [JObj one; JObj two])])
           (serving Ref.sample 50 0))
    = inr (dict [("total", JInt 2); ("results", JArr results)], 200)
    /\ exists r, results !! 1%nat = Some r
         /\ fst (route_check_location (JObj two) (serving Ref.sample 50 1)) = inr (r, 200).
Proof.
  intros one two.
  destruct (batch_agrees_with_single Ref.sample 50 0
              (list_to_map [("locations", JArr [JObj one; JObj two])])
              [JObj one; JObj two]
              [((-22.9519)%float, (-43.2105)%float); (200%float, (-46.6333)%float)])
    as (results & Hroute & Hnth).
  - reflexivity.
  - repeat constructor.
  - exists results. split; [exact Hroute|].
    apply (Hnth 1%nat two); reflexivity.
Defined.

Lemma batch_view_edges_witness :
  route_batch_check (dict [("points", JArr [])]) (serving Ref.sample 50 0)
  = (inr (error "Missing locations array" 400), serving Ref.sample 50 0)
  /\ route_batch_check (dict [("locations", JInt 3)]) (serving Ref.sample 50 0)
     = (inl TypeError, serving Ref.sample 50 0)
  /\ route_batch_check (dict [("locations", JArr [])]) (serving Ref.sample 50 0)
     = (inr (dict [("total", JInt 0); ("results", JArr [])], 200), serving Ref.sample 50 0).
Proof.
  split; [|split].
  - apply (proj1 (batch_view_edges (serving Ref.sample 50 0) (new Ref.sample 50)
                    (list_to_map [("points", JArr [])]) eq_refl)).
    reflexivity.
  - apply (proj1 (proj2 (batch_view_edges (serving Ref.sample 50 0) (new Ref.sample 50)
                           (list_to_map [("locations", JInt 3)]) eq_refl))
             (JInt 3) TypeError); reflexivity.
  - apply (proj2 (proj2 (batch_view_edges (serving Ref.sample 50 0) (new Ref.sample 50)
                           (list_to_map [("locations", JArr [])]) eq_refl))).
    reflexivity.
Defined.

Lemma unloaded_views_answer_500_witness :
  let st := {| PRISONS_DATA := None; ticks := 4 |} in
  let data := dict [("latitude", JFloat (-22.9519)); ("longitude", JFloat (-43.2105))] in
  route_check_location data st = (inr (error "Prison data not loaded" 500), st)
  /\ route_batch_check data st = (inr (error "Prison data not loaded" 500), st)
  /\ route_nearest_prison data st = (inr (error "Prison data not loaded" 500), st).
Proof.
  intros st data. apply (unloaded_views_answer_500 st data). reflexivity.
Defined.

Lemma wider_radius_keeps_the_answer_witness :
  exists found,
    fst (get_nearest_prison (-22.9068) (-43.1729) 20 (loaded Ref.sample 50 0))
    = inr (Some found)
    /\ fst (get_nearest_prison (-22.9068) (-43.1729) 30 (loaded Ref.sample 0 9))
       = inr (Some found).
Proof.
  eexists. split.
  - vm_compute. reflexivity.
  - apply (wider_radius_keeps_the_answer Ref.sample 50 0 0 9
             (-22.9068) (-43.1729) 20 30).
    + vm_compute. reflexivity.
    + vm_compute. reflexivity.
Defined.

Lemma empty_zone_set_answers_witness :
  let nothing : GeoDataFrame := {| crs := 4326; rows := [] |} in
  fst (get_nearest_prison (-22.9068) (-43.1729) infinity (loaded nothing 50 0)) = inr None
  /\ exists res,
       fst (check_location (-22.9068) (-43.1729) (loaded nothing 50 0)) = inr res
       /\ field "inside_prison" res = Some (JBool false)
       /\ field "risk_level" res = Some (JStr "LOW")
       /\ field "action" res = Some (JStr "ALLOW").
Proof.
  intros nothing.
  apply (empty_zone_set_answers nothing 50 0 (-22.9068) (-43.1729) infinity).
  reflexivity.
Defined.

Lemma nearest_view_answers_witness :
  route_nearest_prison
    (dict [("latitude", JFloat (-22.9068)); ("longitude", JFloat (-43.1729))])
    (serving Ref.sample 50 0)
  = (inr (dict [("distance_km", JNull); ("prison_info", JNull);
                ("message", JStr "No prison found within 5.0km")], 200),
     serving Ref.sample 50 0)
  /\ route_nearest_prison
       (dict [("latitude", JFloat (-22.9068)); ("longitude", JFloat (-43.1729));
              ("max_distance_km", JInt 30)])
       (serving Ref.sample 50 0)
     = (inl TypeError, serving Ref.sample 50 0).
Proof.
  split.
  - refine (eq_trans
              (nearest_view_answers Ref.sample 50 0
                 (list_to_map [("latitude", JFloat (-22.9068));
                               ("longitude", JFloat (-43.1729))])
                 (-22.9068) (-43.1729) 5 _ _) _).
    + vm_compute. reflexivity.
    + vm_compute. reflexivity.
    + repeat f_equal.
  - refine (eq_trans
              (nearest_view_answers Ref.sample 50 0
                 (list_to_map [("latitude", JFloat (-22.9068));
                               ("longitude", JFloat (-43.1729));
                               ("max_distance_km", JInt 30)])
                 (-22.9068) (-43.1729) 30 _ _) _).
    + vm_compute. reflexivity.
    + vm_compute. reflexivity.
    + repeat f_equal.
Defined.

Lemma client_fails_open_on_server_error_witness :
  let unloaded := {| PRISONS_DATA := None; ticks := 0 |} in
  validate_transaction_location
    (fun request => fst (serve route_check_location "<!doctype html>" unloaded request))
    (-22.8475) (-43.4686) "PIX-123456789"
  = fail_open "geofencing_service_error".
Proof.
  intros unloaded.
  apply (client_fails_open_on_server_error route_check_location "<!doctype html>" unloaded).
  - reflexivity.
  - intros body. vm_compute. discriminate.
Defined.

Lemma client_end_to_end_witness :
  let result := validate_transaction_location
                  (fun request => fst (serve route_check_location "<!doctype html>"
                                         (serving Ref.overlapping 50 0) request))
                  60 100 "PIX-123456789" in
  field "error" result = Some (JBool false)
  /\ field "should_block" result = Some (JBool true)
  /\ field "reason" result = Some (JStr "inside_prison")
  /\ field "prison_name" result = Some (JStr "East block")
  /\ field "risk_level" result = Some (JStr "HIGH").
Proof.
  intros result.
  exact (client_end_to_end Ref.overlapping 50 0
           (fun request => fst (serve route_check_location "<!doctype html>"
                                  (serving Ref.overlapping 50 0) request))
           "<!doctype html>" 60 100 "PIX-123456789" eq_refl).
Defined.
